(** * apple-mcp: the mail, notes, calendar and reminders modules

    A shallow embedding of [utils/mail.ts], [utils/notes.ts],
    [utils/calendar.ts] and [utils/reminders.ts].  Every exported
    function is an [async] function whose only suspension point is
    [runAppleScript]; it is embedded as a computation in a reader /
    state / exception monad: the host (the AppleScript bridge, the file
    system, the clock and the [Date] built-ins) is read, the trace of
    dispatched scripts is the state, and a rejected promise or a
    [throw] is the exception. *)

From Stdlib Require Import List NArith ZArith Bool String Ascii Lia.
From Stdlib Require Import DecimalString.
Import ListNotations.

Set Implicit Arguments.
Set Warnings "-register-all".

(** ** JavaScript strings *)

(** A JavaScript string is a sequence of UTF-16 code units. *)
Definition jsstring := list N.

Definition lit (s : string) : jsstring :=
  map N_of_ascii (list_ascii_of_string s).

Arguments lit s%_string.

Definition jsstring_eqb (a b : jsstring) : bool :=
  if list_eq_dec N.eq_dec a b then true else false.

(** [WhiteSpace] and [LineTerminator] of ECMAScript, the code units that
    [String.prototype.trim] strips. *)
Definition isWhiteSpace (c : N) : bool :=
  ((9 <=? c) && (c <=? 13) || (c =? 32) || (c =? 160) || (c =? 5760)
   || (8192 <=? c) && (c <=? 8202) || (c =? 8232) || (c =? 8233)
   || (c =? 8239) || (c =? 8287) || (c =? 12288) || (c =? 65279))%N.

Fixpoint trimStart (s : jsstring) : jsstring :=
  match s with
  | c :: rest => if isWhiteSpace c then trimStart rest else s
  | [] => []
  end.

Definition trimEnd (s : jsstring) : jsstring := rev (trimStart (rev s)).

Definition trim (s : jsstring) : jsstring := trimEnd (trimStart s).

(** [!s] for a string [s]: only the empty string is falsy. *)
Definition isEmpty (s : jsstring) : bool :=
  match s with [] => true | _ :: _ => false end.

(** [!s || s.trim() === ""], the blank test of the input validations. *)
Definition isBlank (s : jsstring) : bool := isEmpty s || isEmpty (trim s).

Fixpoint startsWith (s prefix : jsstring) : bool :=
  match prefix, s with
  | [], _ => true
  | p :: prefix', c :: s' => (c =? p)%N && startsWith s' prefix'
  | _ :: _, [] => false
  end.

Fixpoint includes (s needle : jsstring) : bool :=
  startsWith s needle ||
  match s with
  | [] => false
  | _ :: s' => includes s' needle
  end.

(** [s.split(sep)] for a separator of one code unit. *)
Fixpoint split (sep : N) (s : jsstring) : list jsstring :=
  match s with
  | [] => [[]]
  | c :: s' =>
      if (c =? sep)%N then [] :: split sep s'
      else match split sep s' with
           | part :: parts => (c :: part) :: parts
           | [] => [[c]]
           end
  end.

Fixpoint join (sep : jsstring) (parts : list jsstring) : jsstring :=
  match parts with
  | [] => []
  | [p] => p
  | p :: rest => p ++ sep ++ join sep rest
  end.

(** [s.replace(pattern, replacement)] with a string pattern: the first
    occurrence only. *)
Fixpoint replaceFirst (pattern replacement s : jsstring) : jsstring :=
  if startsWith s pattern then replacement ++ skipn (List.length pattern) s
  else match s with
       | [] => []
       | c :: s' => c :: replaceFirst pattern replacement s'
       end.

(** [s.replace(/"/g, '\\"')]: every double quote gets a backslash. *)
Definition escapeQuotes (s : jsstring) : jsstring :=
  flat_map (fun c => if (c =? 34)%N then [92%N; 34%N] else [c]) s.

(** [`${n}`] for a number that is an integer.  The digits are those
    JavaScript prints as long as [n] is a safe integer (below [2^53] in
    absolute value), which is where [Date.now()] and every configured
    limit lie; beyond that JavaScript rounds the double, and from
    [1e21] writes an exponent, which this function does not follow.
    None of the properties below depends on the digits. *)
Definition numberToString (n : Z) : jsstring :=
  lit (NilZero.string_of_int (Z.to_int n)).

(** [a || b] on strings. *)
Definition orElse (a b : jsstring) : jsstring := if isEmpty a then b else a.

(** ** Values of type [any] *)

(** What a value cast to [any] or [unknown] can be at run time, as far as
    the modules inspect it: [Array.isArray], truthiness, [typeof] and
    property reads. *)
Inductive JsValue : Type :=
| VUndefined
| VNull
| VBool (b : bool)
| VString (s : jsstring)
| VArray (items : list JsValue)
| VObject (fields : list (jsstring * JsValue)).

Definition truthy (v : JsValue) : bool :=
  match v with
  | VUndefined | VNull => false
  | VBool b => b
  | VString s => negb (isEmpty s)
  | VArray _ | VObject _ => true
  end.

Definition isArray (v : JsValue) : bool :=
  match v with VArray _ => true | _ => false end.

Definition arrayItems (v : JsValue) : list JsValue :=
  match v with VArray items => items | _ => [] end.

Fixpoint lookupField (key : jsstring) (fields : list (jsstring * JsValue))
  : JsValue :=
  match fields with
  | [] => VUndefined
  | (k, v) :: rest => if jsstring_eqb k key then v else lookupField key rest
  end.

(** [v.key] for the keys the modules read ([name], [content], [id],
    [title], ...): none of them is a property of a primitive or of an
    array, and reading a property of [undefined] or [null] is a
    [TypeError] ([None] here). *)
Definition getProp (v : JsValue) (key : jsstring) : option JsValue :=
  match v with
  | VUndefined | VNull => None
  | VObject fields => Some (lookupField key fields)
  | VBool _ | VString _ | VArray _ => Some VUndefined
  end.

(** [a || b] on values. *)
Definition vOr (a b : JsValue) : JsValue := if truthy a then a else b.

(** ** The native boundary *)

Inductive App : Type := AppMail | AppNotes | AppCalendar | AppReminders.

Definition appName (a : App) : jsstring :=
  match a with
  | AppMail => lit "Mail"
  | AppNotes => lit "Notes"
  | AppCalendar => lit "Calendar"
  | AppReminders => lit "Reminders"
  end.

(** The template literals that the modules hand to [runAppleScript], one
    constructor per template.  [TplProbe] is the identity query
    [tell application "<App>" return name] of the four [check*Access]
    functions. *)
Inductive Template : Type :=
| TplProbe (app : App)
| TplUnreadMails | TplSearchMails | TplSendMail | TplMailboxes
| TplAccounts | TplMailboxesForAccount | TplLatestMails
| TplAllNotes | TplFindNote | TplCreateNote | TplNotesFromFolder
| TplEvents | TplSearchEvents | TplCreateEvent | TplOpenEvent
| TplAllLists | TplAllReminders | TplSearchReminders | TplCreateReminder
| TplOpenReminders | TplRemindersFromListById.

(** A script is a template together with the strings interpolated into
    its [${...}] holes, in the order the holes occur. *)
Record Script : Type := mkScript {
  template : Template;
  holes : list jsstring
}.

Definition probeScript (app : App) : Script := mkScript (TplProbe app) [].

Definition isProbe (s : Script) : bool :=
  match template s with TplProbe _ => true | _ => false end.

(** The promise returned by [runAppleScript] resolves with the text the
    script printed (the modules use the reply as a string: [sendMail],
    [createNote] and [createReminder] cast it to [string], and
    [getLatestMails] calls [startsWith] and [match] on it as it comes),
    or rejects with an [Error] (a native-side error, a refused
    permission, a timeout of the bridge).  Where a module casts the
    reply to [any] or [unknown] before it inspects it, the embedding
    injects the text into [JsValue] and keeps the inspection. *)
Inductive Reply : Type :=
| Resolved (stdout : jsstring)
| Rejected (message : jsstring).

(** The host of one call: the bridge (it answers the [n]-th dispatch of
    the call), the file system behind [fs.writeFileSync] ([Some msg] when
    it throws), the clock, the built-ins whose result depends on the
    locale, the time zone or the Unicode tables of the engine, and the
    messages of the engine's own [TypeError] (a property read on
    [undefined] or [null]) and [RangeError] ([toISOString] of an invalid
    date). *)
Record Host : Type := mkHost {
  osascript : nat -> Script -> Reply;
  writeFileSync : jsstring -> jsstring -> option jsstring;
  dateNow : Z;
  newDate : JsValue -> option Z;
  dateToISOString : Z -> jsstring;
  dateToLocaleString : Z -> jsstring;
  dateToString : Z -> jsstring;
  dateAddDays : Z -> Z -> Z;
  toLowerCase : jsstring -> jsstring;
  nullishPropertyError : jsstring -> jsstring;
  invalidTimeError : jsstring
}.

Definition Trace := list (Script * Reply).

Definition scripts (t : Trace) : list Script := map fst t.

(** ** Async functions *)

Inductive Outcome (A : Type) : Type :=
| Returned (value : A)
| Thrown (message : jsstring).

Arguments Returned {A} value.
Arguments Thrown {A} message.

Definition Task (A : Type) : Type := Host -> Trace -> Outcome A * Trace.

Definition ret {A} (a : A) : Task A := fun _ t => (Returned a, t).

Definition throw {A} (message : jsstring) : Task A :=
  fun _ t => (Thrown message, t).

Definition bind {A B} (m : Task A) (k : A -> Task B) : Task B :=
  fun h t =>
    match m h t with
    | (Returned a, t') => k a h t'
    | (Thrown e, t') => (Thrown e, t')
    end.

(** [try { body } catch (error) { handler }]; the handler receives
    [error instanceof Error ? error.message : String(error)]. *)
Definition tryCatch {A} (body : Task A) (handler : jsstring -> Task A)
  : Task A :=
  fun h t =>
    match body h t with
    | (Returned a, t') => (Returned a, t')
    | (Thrown e, t') => handler e h t'
    end.

Definition host : Task Host := fun h t => (Returned h, t).

(** [await runAppleScript(script)]. *)
Definition runAppleScript (script : Script) : Task jsstring :=
  fun h t =>
    let reply := osascript h (List.length t) script in
    (match reply with
     | Resolved out => Returned out
     | Rejected e => Thrown e
     end, t ++ [(script, reply)]).

(** [console.error] writes a diagnostic line and returns. *)
Definition consoleError (line : jsstring) : Task unit := ret tt.

(** [fs.writeFileSync(path, data, "utf8")]. *)
Definition fsWriteFileSync (path data : jsstring) : Task unit :=
  fun h t =>
    match writeFileSync h path data with
    | None => (Returned tt, t)
    | Some e => (Thrown e, t)
    end.

(** [try { fs.unlinkSync(path) } catch (e) {}]: whatever happens, the
    caller goes on. *)
Definition tryUnlinkSync (path : jsstring) : Task unit := ret tt.

Declare Scope task_scope.
Delimit Scope task_scope with task.
Bind Scope task_scope with Task.

Notation "x <- m ;; k" := (bind m (fun x => k))
  (at level 61, m at next level, right associativity) : task_scope.
Notation "m ;; k" := (bind m (fun _ => k))
  (at level 61, right associativity) : task_scope.

Open Scope task_scope.

(** A call starts with an empty trace. *)
Definition run {A} (m : Task A) (h : Host) : Outcome A * Trace := m h [].

Definition result {A} (m : Task A) (h : Host) : Outcome A := fst (run m h).

Definition dispatched {A} (m : Task A) (h : Host) : list Script :=
  scripts (snd (run m h)).

(** The result of [request*Access]. *)
Module Access.
Record AccessCheckResult : Type := mkAccess {
  hasAccess : bool;
  message : jsstring
}.
End Access.

(** [check*Access]: the probe, with every error turned into [false]. *)
Definition checkAccess (app : App) : Task bool :=
  tryCatch
    (_ <- runAppleScript (probeScript app) ;;
     ret true)
    (fun e =>
       consoleError (lit "Cannot access " ++ appName app ++ lit " app: " ++ e) ;;
       ret false).

Definition nl : jsstring := [10%N].
Definition dq : jsstring := [34%N].

(** [param = dflt] in a parameter list. *)
Definition defaultTo {A} (dflt : A) (arg : option A) : A :=
  match arg with Some a => a | None => dflt end.

(** [arr.filter((name) => name && typeof name === "string")]. *)
Definition nonEmptyStrings (items : list JsValue) : list jsstring :=
  flat_map (fun v => match v with
                     | VString s => if isEmpty s then [] else [s]
                     | _ => []
                     end) items.

(** ** utils/mail.ts *)

Module Mail.

Definition MAX_EMAILS : Z := 20.
Definition MAX_CONTENT_PREVIEW : Z := 300.
Definition TIMEOUT_MS : Z := 10000.

Record EmailMessage : Type := mkEmail {
  subject : jsstring;
  sender : jsstring;
  dateSent : jsstring;
  content : jsstring;
  isRead : bool;
  mailbox : jsstring
}.

Definition checkMailAccess : Task bool := checkAccess AppMail.

Definition accessDeniedMessage : jsstring :=
  lit "Mail access is required but not granted. Please:" ++ nl ++
  lit "1. Open System Settings > Privacy & Security > Automation" ++ nl ++
  lit "2. Find your terminal/app in the list and enable 'Mail'" ++ nl ++
  lit "3. Make sure Mail app is running and configured with at least one account" ++ nl ++
  lit "4. Restart your terminal and try again".

Definition requestMailAccess : Task Access.AccessCheckResult :=
  tryCatch
    (hasAccess <- checkMailAccess ;;
     if hasAccess : bool
     then ret (Access.mkAccess true (lit "Mail access is already granted."))
     else ret (Access.mkAccess false accessDeniedMessage))
    (fun e => ret (Access.mkAccess false (lit "Error checking Mail access: " ++ e))).

Definition unreadMailsScript (maxEmails : Z) : Script :=
  mkScript TplUnreadMails
    [numberToString maxEmails; numberToString maxEmails;
     numberToString MAX_CONTENT_PREVIEW; numberToString MAX_CONTENT_PREVIEW].

Definition getUnreadMails (limit : option Z) : Task (list EmailMessage) :=
  let limit := defaultTo 10%Z limit in
  tryCatch
    (accessResult <- requestMailAccess ;;
     if negb (Access.hasAccess accessResult) then throw (Access.message accessResult)
     else
       let maxEmails := Z.min limit MAX_EMAILS in
       result <- runAppleScript (unreadMailsScript maxEmails) ;;
       if negb (isEmpty result) && startsWith result (lit "SUCCESS:")
       then ret []
       else ret [])
    (fun e =>
       consoleError (lit "Error getting unread emails: " ++ e) ;;
       ret []).

Definition searchMailsScript (cleanSearchTerm : jsstring) (maxEmails : Z)
  : Script :=
  mkScript TplSearchMails
    [cleanSearchTerm; numberToString maxEmails; numberToString maxEmails;
     numberToString MAX_CONTENT_PREVIEW; numberToString MAX_CONTENT_PREVIEW].

Definition searchMails (searchTerm : jsstring) (limit : option Z)
  : Task (list EmailMessage) :=
  let limit := defaultTo 10%Z limit in
  tryCatch
    (accessResult <- requestMailAccess ;;
     if negb (Access.hasAccess accessResult) then throw (Access.message accessResult)
     else if isBlank searchTerm then ret []
     else
       let maxEmails := Z.min limit MAX_EMAILS in
       h <- host ;;
       let cleanSearchTerm := toLowerCase h searchTerm in
       result <- runAppleScript (searchMailsScript cleanSearchTerm maxEmails) ;;
       if negb (isEmpty result) && startsWith result (lit "SUCCESS:")
       then ret []
       else ret [])
    (fun e =>
       consoleError (lit "Error searching emails: " ++ e) ;;
       ret []).

(** The optional [cc] / [bcc] line of the send script. *)
Definition recipientLine (kind : jsstring) (address : option jsstring)
  : jsstring :=
  match address with
  | Some a =>
      if isEmpty a then []
      else lit "make new " ++ kind ++ lit " recipient with properties {address:"
           ++ dq ++ escapeQuotes a ++ dq ++ lit "}"
  | None => []
  end.

Definition sendMailScript (tmpFile subject to : jsstring)
  (cc bcc : option jsstring) : Script :=
  mkScript TplSendMail
    [tmpFile; escapeQuotes subject; escapeQuotes to;
     recipientLine (lit "cc") cc; recipientLine (lit "bcc") bcc].

Definition sendMail (to subject body : jsstring) (cc bcc : option jsstring)
  : Task jsstring :=
  tryCatch
    (accessResult <- requestMailAccess ;;
     if negb (Access.hasAccess accessResult) then throw (Access.message accessResult)
     else if isEmpty to || isEmpty (trim to)
     then throw (lit "To address is required")
     else if isEmpty subject || isEmpty (trim subject)
     then throw (lit "Subject is required")
     else if isEmpty body || isEmpty (trim body)
     then throw (lit "Email body is required")
     else
       h <- host ;;
       let tmpFile :=
         lit "/tmp/email-body-" ++ numberToString (dateNow h) ++ lit ".txt" in
       fsWriteFileSync tmpFile (trim body) ;;
       result <- runAppleScript (sendMailScript tmpFile subject to cc bcc) ;;
       tryUnlinkSync tmpFile ;;
       if jsstring_eqb result (lit "SUCCESS")
       then ret (lit "Email sent to " ++ to ++ lit " with subject " ++ dq
                 ++ subject ++ dq)
       else throw (lit "Failed to send email"))
    (fun e =>
       consoleError (lit "Error sending email: " ++ e) ;;
       throw (lit "Error sending email: " ++ e)).

Definition mailboxesScript : Script := mkScript TplMailboxes [].

Definition getMailboxes : Task (list jsstring) :=
  tryCatch
    (accessResult <- requestMailAccess ;;
     if negb (Access.hasAccess accessResult) then throw (Access.message accessResult)
     else
       out <- runAppleScript mailboxesScript ;;
       let result := VString out in
       if isArray result then ret (nonEmptyStrings (arrayItems result))
       else ret [])
    (fun e =>
       consoleError (lit "Error getting mailboxes: " ++ e) ;;
       ret []).

Definition accountsScript : Script := mkScript TplAccounts [].

Definition getAccounts : Task (list jsstring) :=
  tryCatch
    (accessResult <- requestMailAccess ;;
     if negb (Access.hasAccess accessResult) then throw (Access.message accessResult)
     else
       out <- runAppleScript accountsScript ;;
       let result := VString out in
       if isArray result then ret (nonEmptyStrings (arrayItems result))
       else ret [])
    (fun e =>
       consoleError (lit "Error getting accounts: " ++ e) ;;
       ret []).

Definition mailboxesForAccountScript (accountName : jsstring) : Script :=
  mkScript TplMailboxesForAccount [escapeQuotes accountName].

Definition getMailboxesForAccount (accountName : jsstring)
  : Task (list jsstring) :=
  tryCatch
    (accessResult <- requestMailAccess ;;
     if negb (Access.hasAccess accessResult) then throw (Access.message accessResult)
     else if isEmpty accountName || isEmpty (trim accountName) then ret []
     else
       out <- runAppleScript (mailboxesForAccountScript accountName) ;;
       let result := VString out in
       if isArray result then ret (nonEmptyStrings (arrayItems result))
       else ret [])
    (fun e =>
       consoleError (lit "Error getting mailboxes for account: " ++ e) ;;
       ret []).

(** [asResult.match(/\{([^}]+)\}/g)]: the matches from left to right.
    [inside] is the text read since the opening brace of the candidate
    match, if there is one. *)
Fixpoint matchBraces (inside : option jsstring) (s : jsstring)
  : list jsstring :=
  match s with
  | [] => []
  | c :: s' =>
      match inside with
      | None =>
          if (c =? 123)%N then matchBraces (Some []) s'
          else matchBraces None s'
      | Some body =>
          if (c =? 125)%N then
            if isEmpty body then matchBraces None s'
            else (123%N :: body ++ [125%N]) :: matchBraces None s'
          else matchBraces (Some (body ++ [c])) s'
      end
  end.

(** [match.substring(1, match.length - 1)]. *)
Definition stripBraces (m : jsstring) : jsstring :=
  removelast (tl m).

(** The object [email], as the list of its assignments, latest first. *)
Definition assign (email : list (jsstring * jsstring)) (prop : jsstring)
  : list (jsstring * jsstring) :=
  let parts := split 58 prop in
  if (2 <=? List.length parts)%nat
  then (trim (hd [] parts), trim (join (lit ":") (tl parts))) :: email
  else email.

Fixpoint field (key : jsstring) (email : list (jsstring * jsstring))
  : jsstring :=
  match email with
  | [] => []
  | (k, v) :: rest => if jsstring_eqb k key then v else field key rest
  end.

Definition parseEmail (h : Host) (account m : jsstring)
  : list EmailMessage :=
  let props := split 44 (stripBraces m) in
  let email := fold_left assign props [] in
  if negb (isEmpty (orElse (field (lit "subject") email)
                           (field (lit "sender") email)))
  then [mkEmail
          (orElse (field (lit "subject") email) (lit "No subject"))
          (orElse (field (lit "sender") email) (lit "Unknown sender"))
          (orElse (field (lit "date") email) (dateToString h (dateNow h)))
          (orElse (field (lit "content") email) (lit "[Content not available]"))
          false
          (account ++ lit " - "
           ++ orElse (field (lit "mailbox") email) (lit "Unknown"))]
  else [].

Definition latestMailsScript (account : jsstring) (limit : Z) : Script :=
  mkScript TplLatestMails
    [escapeQuotes account; numberToString limit; numberToString limit].

Definition getLatestMails (account : jsstring) (limit : option Z)
  : Task (list EmailMessage) :=
  let limit := defaultTo 5%Z limit in
  tryCatch
    (accessResult <- requestMailAccess ;;
     if negb (Access.hasAccess accessResult) then throw (Access.message accessResult)
     else
       asResult <- runAppleScript (latestMailsScript account limit) ;;
       if negb (isEmpty asResult) && startsWith asResult (lit "Error:")
       then throw asResult
       else
         h <- host ;;
         ret (flat_map (parseEmail h account) (matchBraces None asResult)))
    (fun e =>
       consoleError (lit "Error getting latest emails:") ;;
       ret []).

End Mail.

(** [arr.map(f)] for an [f] that can throw. *)
Fixpoint mapTask {A B} (f : A -> Task B) (l : list A) : Task (list B) :=
  match l with
  | [] => ret []
  | a :: rest =>
      b <- f a ;;
      bs <- mapTask f rest ;;
      ret (b :: bs)
  end.

(** [v.key], throwing the engine's [TypeError] on [undefined] and [null]. *)
Definition readProp (v : JsValue) (key : jsstring) : Task JsValue :=
  match getProp v key with
  | Some x => ret x
  | None => h <- host ;; throw (nullishPropertyError h key)
  end.

(** [Array.isArray(result) ? result : result ? [result] : []]. *)
Definition asArrayOrSingleton (result : JsValue) : list JsValue :=
  if isArray result then arrayItems result
  else if truthy result then [result] else [].

(** [Array.isArray(result) ? result : []]. *)
Definition asArrayOrEmpty (result : JsValue) : list JsValue :=
  if isArray result then arrayItems result else [].

(** [arr.slice(0, end)]. *)
Definition sliceTo {A} (stop : Z) (l : list A) : list A :=
  let len := Z.of_nat (List.length l) in
  let stop := if (stop <? 0)%Z then Z.max (len + stop) 0 else Z.min stop len in
  firstn (Z.to_nat stop) l.

(** ** utils/notes.ts *)

Module Notes.

Definition MAX_NOTES : Z := 50.
Definition MAX_CONTENT_PREVIEW : Z := 200.
Definition TIMEOUT_MS : Z := 8000.

Record Note : Type := mkNote {
  name : JsValue;
  content : JsValue;
  creationDate : option Z;
  modificationDate : option Z
}.

Record CreateNoteResult : Type := mkCreateNoteResult {
  success : bool;
  note : option Note;
  message : option jsstring;
  folderName : option jsstring;
  usedDefaultFolder : option bool
}.

Record FolderNotesResult : Type := mkFolderNotesResult {
  folderSuccess : bool;
  folderNotes : option (list Note);
  folderMessage : option jsstring
}.

Definition checkNotesAccess : Task bool := checkAccess AppNotes.

Definition accessDeniedMessage : jsstring :=
  lit "Notes access is required but not granted. Please:" ++ nl ++
  lit "1. Open System Settings > Privacy & Security > Automation" ++ nl ++
  lit "2. Find your terminal/app in the list and enable 'Notes'" ++ nl ++
  lit "3. Restart your terminal and try again" ++ nl ++
  lit "4. If the option is not available, run this command again to trigger the permission dialog".

Definition requestNotesAccess : Task Access.AccessCheckResult :=
  tryCatch
    (hasAccess <- checkNotesAccess ;;
     if hasAccess : bool
     then ret (Access.mkAccess true (lit "Notes access is already granted."))
     else ret (Access.mkAccess false accessDeniedMessage))
    (fun e => ret (Access.mkAccess false (lit "Error checking Notes access: " ++ e))).

(** The callback of [resultArray.map] in [getAllNotes] and [findNote]. *)
Definition toNote (noteData : JsValue) : Task Note :=
  n <- readProp noteData (lit "name") ;;
  c <- readProp noteData (lit "content") ;;
  ret (mkNote (vOr n (VString (lit "Untitled Note")))
              (vOr c (VString [])) None None).

Definition allNotesScript : Script :=
  mkScript TplAllNotes
    [numberToString MAX_NOTES; numberToString MAX_CONTENT_PREVIEW;
     numberToString MAX_CONTENT_PREVIEW].

Definition getAllNotes : Task (list Note) :=
  tryCatch
    (accessResult <- requestNotesAccess ;;
     if negb (Access.hasAccess accessResult) then throw (Access.message accessResult)
     else
       out <- runAppleScript allNotesScript ;;
       let result := VString out in
       let resultArray := asArrayOrSingleton result in
       mapTask toNote resultArray)
    (fun e =>
       consoleError (lit "Error getting all notes: " ++ e) ;;
       ret []).

Definition findNoteScript (searchTerm : jsstring) : Script :=
  mkScript TplFindNote
    [searchTerm; numberToString MAX_NOTES;
     numberToString MAX_CONTENT_PREVIEW; numberToString MAX_CONTENT_PREVIEW].

Definition findNote (searchText : jsstring) : Task (list Note) :=
  tryCatch
    (accessResult <- requestNotesAccess ;;
     if negb (Access.hasAccess accessResult) then throw (Access.message accessResult)
     else if isBlank searchText then ret []
     else
       h <- host ;;
       let searchTerm := toLowerCase h searchText in
       out <- runAppleScript (findNoteScript searchTerm) ;;
       let result := VString out in
       let resultArray := asArrayOrSingleton result in
       mapTask toNote resultArray)
    (fun e =>
       consoleError (lit "Error finding notes: " ++ e) ;;
       ret []).

Definition createNoteScript (folder tmpFile title : jsstring) : Script :=
  mkScript TplCreateNote
    (repeat folder 7 ++ [tmpFile; escapeQuotes title; escapeQuotes title]).

Definition createNote (title body : jsstring) (folder : option jsstring)
  : Task CreateNoteResult :=
  let folder := defaultTo (lit "Claude") folder in
  tryCatch
    (accessResult <- requestNotesAccess ;;
     if negb (Access.hasAccess accessResult)
     then ret (mkCreateNoteResult false None
                 (Some (Access.message accessResult)) None None)
     else if isBlank title
     then ret (mkCreateNoteResult false None
                 (Some (lit "Note title cannot be empty")) None None)
     else
       let formattedBody := trim body in
       h <- host ;;
       let tmpFile :=
         lit "/tmp/note-content-" ++ numberToString (dateNow h) ++ lit ".txt" in
       fsWriteFileSync tmpFile formattedBody ;;
       result <- runAppleScript (createNoteScript folder tmpFile title) ;;
       tryUnlinkSync tmpFile ;;
       if negb (isEmpty result) && startsWith result (lit "SUCCESS:")
       then
         let parts := split 58 result in
         let folderName := orElse (nth 1 parts []) (lit "Notes") in
         let usedDefaultFolder := jsstring_eqb (nth 2 parts []) (lit "true") in
         ret (mkCreateNoteResult true
                (Some (mkNote (VString title) (VString formattedBody) None None))
                None (Some folderName) (Some usedDefaultFolder))
       else
         ret (mkCreateNoteResult false None
                (Some (lit "Failed to create note: "
                       ++ orElse result (lit "No result from AppleScript")))
                None None))
    (fun e =>
       ret (mkCreateNoteResult false None
              (Some (lit "Failed to create note: " ++ e)) None None)).

Definition notesFromFolderScript (folder : jsstring) : Script :=
  mkScript TplNotesFromFolder
    [folder; numberToString MAX_NOTES;
     numberToString MAX_CONTENT_PREVIEW; numberToString MAX_CONTENT_PREVIEW].

Definition getNotesFromFolder (folder : jsstring) : Task FolderNotesResult :=
  tryCatch
    (accessResult <- requestNotesAccess ;;
     if negb (Access.hasAccess accessResult)
     then ret (mkFolderNotesResult false None
                 (Some (Access.message accessResult)))
     else
       result <- runAppleScript (notesFromFolderScript folder) ;;
       if negb (isEmpty result) && startsWith result (lit "ERROR:")
       then ret (mkFolderNotesResult false None
                   (Some (replaceFirst (lit "ERROR:") [] result)))
       else if negb (isEmpty result) && startsWith result (lit "SUCCESS:")
       then ret (mkFolderNotesResult true (Some []) None)
       else ret (mkFolderNotesResult true (Some []) None))
    (fun e =>
       ret (mkFolderNotesResult false None
              (Some (lit "Failed to get notes from folder: " ++ e)))).

(** [if (result.success && result.notes) { ...slice... } return result]. *)
Definition limitNotes (limit : Z) (r : FolderNotesResult) : FolderNotesResult :=
  match folderSuccess r, folderNotes r with
  | true, Some notes =>
      mkFolderNotesResult true
        (Some (sliceTo (Z.min limit (Z.of_nat (List.length notes))) notes)) None
  | _, _ => r
  end.

Definition getRecentNotesFromFolder (folder : jsstring) (limit : option Z)
  : Task FolderNotesResult :=
  let limit := defaultTo 5%Z limit in
  tryCatch
    (r <- getNotesFromFolder folder ;;
     ret (limitNotes limit r))
    (fun e =>
       ret (mkFolderNotesResult false None
              (Some (lit "Failed to get recent notes from folder: " ++ e)))).

Definition getNotesByDateRange (folder : jsstring)
  (fromDate toDate : option jsstring) (limit : option Z)
  : Task FolderNotesResult :=
  let limit := defaultTo 20%Z limit in
  tryCatch
    (r <- getNotesFromFolder folder ;;
     ret (limitNotes limit r))
    (fun e =>
       ret (mkFolderNotesResult false None
              (Some (lit "Failed to get notes by date range: " ++ e)))).

End Notes.

(** [arg ? arg : dflt] for an optional string argument. *)
Definition ifGiven (arg : option jsstring) (dflt : jsstring) : jsstring :=
  match arg with
  | Some s => if isEmpty s then dflt else s
  | None => dflt
  end.

(** ** utils/calendar.ts *)

Module Calendar.

Definition TIMEOUT_MS : Z := 10000.
Definition MAX_EVENTS : Z := 20.

Record CalendarEvent : Type := mkEvent {
  id : JsValue;
  title : JsValue;
  location : JsValue;
  notes : JsValue;
  startDate : option jsstring;
  endDate : option jsstring;
  calendarName : JsValue;
  isAllDay : JsValue;
  url : JsValue
}.

Record EventResult : Type := mkEventResult {
  success : bool;
  message : jsstring;
  eventId : option jsstring
}.

Definition checkCalendarAccess : Task bool := checkAccess AppCalendar.

Definition accessDeniedMessage : jsstring :=
  lit "Calendar access is required but not granted. Please:" ++ nl ++
  lit "1. Open System Settings > Privacy & Security > Automation" ++ nl ++
  lit "2. Find your terminal/app in the list and enable 'Calendar'" ++ nl ++
  lit "3. Alternatively, open System Settings > Privacy & Security > Calendars" ++ nl ++
  lit "4. Add your terminal/app to the allowed applications" ++ nl ++
  lit "5. Restart your terminal and try again".

Definition requestCalendarAccess : Task Access.AccessCheckResult :=
  tryCatch
    (hasAccess <- checkCalendarAccess ;;
     if hasAccess : bool
     then ret (Access.mkAccess true (lit "Calendar access is already granted."))
     else ret (Access.mkAccess false accessDeniedMessage))
    (fun e =>
       ret (Access.mkAccess false (lit "Error checking Calendar access: " ++ e))).

(** [v ? new Date(v).toISOString() : null]. *)
Definition isoOrNull (v : JsValue) : Task (option jsstring) :=
  if truthy v then
    h <- host ;;
    match newDate h v with
    | Some t => ret (Some (dateToISOString h t))
    | None => throw (invalidTimeError h)
    end
  else ret None.

(** The callback of [resultArray.map] in [getEvents] and [searchEvents]. *)
Definition toEvent (eventData : JsValue) : Task CalendarEvent :=
  h <- host ;;
  i <- readProp eventData (lit "id") ;;
  t <- readProp eventData (lit "title") ;;
  l <- readProp eventData (lit "location") ;;
  n <- readProp eventData (lit "notes") ;;
  s <- readProp eventData (lit "startDate") ;;
  s' <- isoOrNull s ;;
  e <- readProp eventData (lit "endDate") ;;
  e' <- isoOrNull e ;;
  c <- readProp eventData (lit "calendarName") ;;
  a <- readProp eventData (lit "isAllDay") ;;
  u <- readProp eventData (lit "url") ;;
  ret (mkEvent
         (vOr i (VString (lit "unknown-" ++ numberToString (dateNow h))))
         (vOr t (VString (lit "Untitled Event")))
         (vOr l VNull) (vOr n VNull) s' e'
         (vOr c (VString (lit "Unknown Calendar")))
         (vOr a (VBool false)) (vOr u VNull)).

(** [date.toISOString().split('T')[0]]. *)
Definition isoDay (h : Host) (t : Z) : jsstring :=
  hd [] (split 84 (dateToISOString h t)).

Definition eventsScript (startDate endDate : jsstring) : Script :=
  mkScript TplEvents [startDate; endDate].

Definition getEvents (limit : option Z) (fromDate toDate : option jsstring)
  : Task (list CalendarEvent) :=
  let limit := defaultTo 10%Z limit in
  tryCatch
    (consoleError (lit "getEvents - Starting to fetch calendar events") ;;
     accessResult <- requestCalendarAccess ;;
     if negb (Access.hasAccess accessResult)
     then throw (Access.message accessResult)
     else
       consoleError (lit "getEvents - Calendar access check passed") ;;
       h <- host ;;
       let today := dateNow h in
       let defaultEndDate := dateAddDays h (dateNow h) 7 in
       let startDate := ifGiven fromDate (isoDay h today) in
       let endDate := ifGiven toDate (isoDay h defaultEndDate) in
       out <- runAppleScript (eventsScript startDate endDate) ;;
       let result := VString out in
       let resultArray := asArrayOrEmpty result in
       mapTask toEvent resultArray)
    (fun e =>
       consoleError (lit "Error getting events: " ++ e) ;;
       ret []).

Definition searchEventsScript : Script := mkScript TplSearchEvents [].

Definition searchEvents (searchText : jsstring) (limit : option Z)
  (fromDate toDate : option jsstring) : Task (list CalendarEvent) :=
  let limit := defaultTo 10%Z limit in
  tryCatch
    (accessResult <- requestCalendarAccess ;;
     if negb (Access.hasAccess accessResult)
     then throw (Access.message accessResult)
     else
       consoleError (lit "searchEvents - Processing calendars for search: "
                     ++ dq ++ searchText ++ dq) ;;
       h <- host ;;
       let today := dateNow h in
       let defaultEndDate := dateAddDays h (dateNow h) 30 in
       let startDate := ifGiven fromDate (isoDay h today) in
       let endDate := ifGiven toDate (isoDay h defaultEndDate) in
       out <- runAppleScript searchEventsScript ;;
       let result := VString out in
       let resultArray := asArrayOrEmpty result in
       mapTask toEvent resultArray)
    (fun e =>
       consoleError (lit "Error searching events: " ++ e) ;;
       ret []).

Definition boolToString (b : bool) : jsstring :=
  if b then lit "true" else lit "false".

Definition createEventScript (h : Host) (start stop : Z)
  (targetCalendar title : jsstring) (isAllDay : bool)
  (location notes : option jsstring) : Script :=
  mkScript TplCreateEvent
    [dateToLocaleString h start; dateToLocaleString h stop; targetCalendar;
     escapeQuotes title; boolToString isAllDay;
     ifGiven location []; escapeQuotes (ifGiven location []);
     ifGiven notes []; escapeQuotes (ifGiven notes [])].

Definition createEvent (title startDate endDate : jsstring)
  (location notes : option jsstring) (isAllDay : option bool)
  (calendarName : option jsstring) : Task EventResult :=
  let isAllDay := defaultTo false isAllDay in
  tryCatch
    (accessResult <- requestCalendarAccess ;;
     if negb (Access.hasAccess accessResult)
     then ret (mkEventResult false (Access.message accessResult) None)
     else if isEmpty (trim title)
     then ret (mkEventResult false (lit "Event title cannot be empty") None)
     else if isEmpty startDate || isEmpty endDate
     then ret (mkEventResult false
                 (lit "Start date and end date are required") None)
     else
       h <- host ;;
       match newDate h (VString startDate), newDate h (VString endDate) with
       | Some start, Some stop =>
           if (stop <=? start)%Z
           then ret (mkEventResult false
                       (lit "End date must be after start date") None)
           else
             consoleError (lit "createEvent - Attempting to create event: "
                           ++ dq ++ title ++ dq) ;;
             let targetCalendar := ifGiven calendarName (lit "Calendar") in
             eventId <- runAppleScript
                          (createEventScript h start stop targetCalendar title
                             isAllDay location notes) ;;
             ret (mkEventResult true
                    (lit "Event " ++ dq ++ title ++ dq
                     ++ lit " created successfully.")
                    (Some eventId))
       | _, _ =>
           ret (mkEventResult false
                  (lit "Invalid date format. Please use ISO format (YYYY-MM-DDTHH:mm:ss.sssZ)")
                  None)
       end)
    (fun e =>
       ret (mkEventResult false (lit "Error creating event: " ++ e) None)).

Definition openEventScript : Script := mkScript TplOpenEvent [].

Definition openEvent (eventId : jsstring) : Task EventResult :=
  tryCatch
    (accessResult <- requestCalendarAccess ;;
     if negb (Access.hasAccess accessResult)
     then ret (mkEventResult false (Access.message accessResult) None)
     else
       consoleError (lit "openEvent - Attempting to open event with ID: "
                     ++ eventId) ;;
       result <- runAppleScript openEventScript ;;
       if includes eventId (lit "non-existent") || includes eventId (lit "12345")
       then ret (mkEventResult false (lit "Event not found (test scenario)") None)
       else ret (mkEventResult true result None))
    (fun e =>
       ret (mkEventResult false (lit "Error opening event: " ++ e) None)).

End Calendar.

(** ** utils/reminders.ts *)

Module Reminders.

Definition MAX_REMINDERS : Z := 50.
Definition MAX_LISTS : Z := 20.
Definition TIMEOUT_MS : Z := 8000.

Record ReminderList : Type := mkList {
  listDisplayName : JsValue;
  listId : JsValue
}.

Record Reminder : Type := mkReminder {
  name : jsstring;
  id : jsstring;
  body : jsstring;
  completed : bool;
  dueDate : option jsstring;
  listName : jsstring
}.

Record OpenReminderResult : Type := mkOpenReminderResult {
  success : bool;
  message : jsstring;
  reminder : option Reminder
}.

Definition checkRemindersAccess : Task bool := checkAccess AppReminders.

Definition accessDeniedMessage : jsstring :=
  lit "Reminders access is required but not granted. Please:" ++ nl ++
  lit "1. Open System Settings > Privacy & Security > Automation" ++ nl ++
  lit "2. Find your terminal/app in the list and enable 'Reminders'" ++ nl ++
  lit "3. Restart your terminal and try again" ++ nl ++
  lit "4. If the option is not available, run this command again to trigger the permission dialog".

Definition requestRemindersAccess : Task Access.AccessCheckResult :=
  tryCatch
    (hasAccess <- checkRemindersAccess ;;
     if hasAccess : bool
     then ret (Access.mkAccess true (lit "Reminders access is already granted."))
     else ret (Access.mkAccess false accessDeniedMessage))
    (fun e =>
       ret (Access.mkAccess false
              (lit "Error checking Reminders access: " ++ e))).

(** The callback of [resultArray.map] in [getAllLists]. *)
Definition toList (listData : JsValue) : Task ReminderList :=
  n <- readProp listData (lit "name") ;;
  i <- readProp listData (lit "id") ;;
  ret (mkList (vOr n (VString (lit "Untitled List")))
              (vOr i (VString (lit "unknown-id")))).

Definition allListsScript : Script :=
  mkScript TplAllLists [numberToString MAX_LISTS].

Definition getAllLists : Task (list ReminderList) :=
  tryCatch
    (accessResult <- requestRemindersAccess ;;
     if negb (Access.hasAccess accessResult)
     then throw (Access.message accessResult)
     else
       out <- runAppleScript allListsScript ;;
       let result := VString out in
       let resultArray := asArrayOrSingleton result in
       mapTask toList resultArray)
    (fun e =>
       consoleError (lit "Error getting reminder lists: " ++ e) ;;
       ret []).

Definition allRemindersScript : Script := mkScript TplAllReminders [].

Definition getAllReminders (listName : option jsstring)
  : Task (list Reminder) :=
  tryCatch
    (accessResult <- requestRemindersAccess ;;
     if negb (Access.hasAccess accessResult)
     then throw (Access.message accessResult)
     else
       result <- runAppleScript allRemindersScript ;;
       if negb (isEmpty result) && includes result (lit "SUCCESS")
       then ret []
       else ret [])
    (fun e =>
       consoleError (lit "Error getting reminders: " ++ e) ;;
       ret []).

Definition searchRemindersScript : Script := mkScript TplSearchReminders [].

Definition searchReminders (searchText : jsstring) : Task (list Reminder) :=
  tryCatch
    (accessResult <- requestRemindersAccess ;;
     if negb (Access.hasAccess accessResult)
     then throw (Access.message accessResult)
     else if isBlank searchText then ret []
     else
       _ <- runAppleScript searchRemindersScript ;;
       ret [])
    (fun e =>
       consoleError (lit "Error searching reminders: " ++ e) ;;
       ret []).

Definition createReminderScript (cleanName : jsstring) : Script :=
  mkScript TplCreateReminder [cleanName].

Definition createReminder (name : jsstring) (listName : option jsstring)
  (notes dueDate : option jsstring) : Task Reminder :=
  let listName := defaultTo (lit "Reminders") listName in
  tryCatch
    (accessResult <- requestRemindersAccess ;;
     if negb (Access.hasAccess accessResult)
     then throw (Access.message accessResult)
     else if isBlank name then throw (lit "Reminder name cannot be empty")
     else
       let cleanName := escapeQuotes name in
       let cleanListName := escapeQuotes listName in
       let cleanNotes := escapeQuotes (ifGiven notes []) in
       result <- runAppleScript (createReminderScript cleanName) ;;
       if negb (isEmpty result) && startsWith result (lit "SUCCESS:")
       then
         let actualListName := replaceFirst (lit "SUCCESS:") [] result in
         ret (mkReminder name (lit "created-reminder-id") (ifGiven notes [])
                false
                (match dueDate with
                 | Some d => if isEmpty d then None else Some d
                 | None => None
                 end)
                actualListName)
       else throw (lit "Failed to create reminder: " ++ result))
    (fun e => throw (lit "Failed to create reminder: " ++ e)).

Definition openRemindersScript : Script := mkScript TplOpenReminders [].

Definition openReminder (searchText : jsstring) : Task OpenReminderResult :=
  tryCatch
    (accessResult <- requestRemindersAccess ;;
     if negb (Access.hasAccess accessResult)
     then ret (mkOpenReminderResult false (Access.message accessResult) None)
     else
       matchingReminders <- searchReminders searchText ;;
       if (List.length matchingReminders =? 0)%nat
       then ret (mkOpenReminderResult false
                   (lit "No matching reminders found") None)
       else
         result <- runAppleScript openRemindersScript ;;
         if jsstring_eqb result (lit "SUCCESS")
         then ret (mkOpenReminderResult true (lit "Reminders app opened")
                     (hd_error matchingReminders))
         else ret (mkOpenReminderResult false
                     (lit "Failed to open Reminders app") None))
    (fun e =>
       ret (mkOpenReminderResult false
              (lit "Failed to open reminder: " ++ e) None)).

Definition remindersFromListByIdScript : Script :=
  mkScript TplRemindersFromListById [].

Definition getRemindersFromListById (listId : jsstring)
  (props : option (list jsstring)) : Task (list JsValue) :=
  tryCatch
    (accessResult <- requestRemindersAccess ;;
     if negb (Access.hasAccess accessResult)
     then throw (Access.message accessResult)
     else
       _ <- runAppleScript remindersFromListByIdScript ;;
       ret [])
    (fun e =>
       consoleError (lit "Error getting reminders from list by ID: " ++ e) ;;
       ret []).

End Reminders.

(** ** The operations, uniformly *)

(** One constructor per exported operation, with its arguments. *)
Inductive Call : Type :=
| GetUnreadMails (limit : option Z)
| SearchMails (searchTerm : jsstring) (limit : option Z)
| SendMail (to subject body : jsstring) (cc bcc : option jsstring)
| GetMailboxes
| GetAccounts
| GetMailboxesForAccount (accountName : jsstring)
| GetLatestMails (account : jsstring) (limit : option Z)
| GetAllNotes
| FindNote (searchText : jsstring)
| CreateNote (title body : jsstring) (folderName : option jsstring)
| GetNotesFromFolder (folderName : jsstring)
| GetRecentNotesFromFolder (folderName : jsstring) (limit : option Z)
| GetNotesByDateRange (folderName : jsstring)
    (fromDate toDate : option jsstring) (limit : option Z)
| SearchEvents (searchText : jsstring) (limit : option Z)
    (fromDate toDate : option jsstring)
| OpenEvent (eventId : jsstring)
| GetEvents (limit : option Z) (fromDate toDate : option jsstring)
| CreateEvent (title startDate endDate : jsstring)
    (location notes : option jsstring) (isAllDay : option bool)
    (calendarName : option jsstring)
| GetAllLists
| GetAllReminders (listName : option jsstring)
| SearchReminders (searchText : jsstring)
| CreateReminder (name : jsstring) (listName notes dueDate : option jsstring)
| OpenReminder (searchText : jsstring)
| GetRemindersFromListById (listId : jsstring) (props : option (list jsstring)).

(** What an operation hands back to its caller. *)
Inductive Answer : Type :=
| Emails (l : list Mail.EmailMessage)
| Text (s : jsstring)
| Names (l : list jsstring)
| NoteList (l : list Notes.Note)
| NoteCreation (r : Notes.CreateNoteResult)
| FolderNotes (r : Notes.FolderNotesResult)
| Events (l : list Calendar.CalendarEvent)
| EventOutcome (r : Calendar.EventResult)
| Lists (l : list Reminders.ReminderList)
| ReminderItems (l : list Reminders.Reminder)
| ReminderCreated (r : Reminders.Reminder)
| ReminderOpened (r : Reminders.OpenReminderResult)
| Values (l : list JsValue).

Definition fmap {A B} (f : A -> B) (m : Task A) : Task B :=
  a <- m ;; ret (f a).

Definition perform (c : Call) : Task Answer :=
  match c with
  | GetUnreadMails limit => fmap Emails (Mail.getUnreadMails limit)
  | SearchMails term limit => fmap Emails (Mail.searchMails term limit)
  | SendMail to subject body cc bcc =>
      fmap Text (Mail.sendMail to subject body cc bcc)
  | GetMailboxes => fmap Names Mail.getMailboxes
  | GetAccounts => fmap Names Mail.getAccounts
  | GetMailboxesForAccount a => fmap Names (Mail.getMailboxesForAccount a)
  | GetLatestMails a limit => fmap Emails (Mail.getLatestMails a limit)
  | GetAllNotes => fmap NoteList Notes.getAllNotes
  | FindNote text => fmap NoteList (Notes.findNote text)
  | CreateNote title body folder =>
      fmap NoteCreation (Notes.createNote title body folder)
  | GetNotesFromFolder folder =>
      fmap FolderNotes (Notes.getNotesFromFolder folder)
  | GetRecentNotesFromFolder folder limit =>
      fmap FolderNotes (Notes.getRecentNotesFromFolder folder limit)
  | GetNotesByDateRange folder from to limit =>
      fmap FolderNotes (Notes.getNotesByDateRange folder from to limit)
  | SearchEvents text limit from to =>
      fmap Events (Calendar.searchEvents text limit from to)
  | OpenEvent eventId => fmap EventOutcome (Calendar.openEvent eventId)
  | GetEvents limit from to => fmap Events (Calendar.getEvents limit from to)
  | CreateEvent title s e loc notes allDay cal =>
      fmap EventOutcome (Calendar.createEvent title s e loc notes allDay cal)
  | GetAllLists => fmap Lists Reminders.getAllLists
  | GetAllReminders l => fmap ReminderItems (Reminders.getAllReminders l)
  | SearchReminders text => fmap ReminderItems (Reminders.searchReminders text)
  | CreateReminder name l notes due =>
      fmap ReminderCreated (Reminders.createReminder name l notes due)
  | OpenReminder text => fmap ReminderOpened (Reminders.openReminder text)
  | GetRemindersFromListById i props =>
      fmap Values (Reminders.getRemindersFromListById i props)
  end.

(** The application an operation talks to. *)
Definition appOf (c : Call) : App :=
  match c with
  | GetUnreadMails _ | SearchMails _ _ | SendMail _ _ _ _ _ | GetMailboxes
  | GetAccounts | GetMailboxesForAccount _ | GetLatestMails _ _ => AppMail
  | GetAllNotes | FindNote _ | CreateNote _ _ _ | GetNotesFromFolder _
  | GetRecentNotesFromFolder _ _ | GetNotesByDateRange _ _ _ _ => AppNotes
  | SearchEvents _ _ _ _ | OpenEvent _ | GetEvents _ _ _
  | CreateEvent _ _ _ _ _ _ _ => AppCalendar
  | GetAllLists | GetAllReminders _ | SearchReminders _
  | CreateReminder _ _ _ _ | OpenReminder _
  | GetRemindersFromListById _ _ => AppReminders
  end.

(** The access probe of each module. *)
Definition requestAccess (app : App) : Task Access.AccessCheckResult :=
  match app with
  | AppMail => Mail.requestMailAccess
  | AppNotes => Notes.requestNotesAccess
  | AppCalendar => Calendar.requestCalendarAccess
  | AppReminders => Reminders.requestRemindersAccess
  end.

Definition accessDeniedMessage (app : App) : jsstring :=
  match app with
  | AppMail => Mail.accessDeniedMessage
  | AppNotes => Notes.accessDeniedMessage
  | AppCalendar => Calendar.accessDeniedMessage
  | AppReminders => Reminders.accessDeniedMessage
  end.

(** An answer that is an empty collection. *)
Definition isEmptyCollection (a : Answer) : bool :=
  match a with
  | Emails [] | Names [] | NoteList [] | Events [] | Lists []
  | ReminderItems [] | Values [] => true
  | _ => false
  end.

(** The message of an answer that is a result record with
    [success = false]. *)
Definition failureMessage (a : Answer) : option jsstring :=
  match a with
  | NoteCreation r =>
      if Notes.success r then None else Notes.message r
  | FolderNotes r =>
      if Notes.folderSuccess r then None else Notes.folderMessage r
  | EventOutcome r =>
      if Calendar.success r then None else Some (Calendar.message r)
  | ReminderOpened r =>
      if Reminders.success r then None else Some (Reminders.message r)
  | _ => None
  end.

Definition isRejected (r : Reply) : bool :=
  match r with Rejected _ => true | Resolved _ => false end.

(** ** Phone numbers *)

Module Contacts.

(** Modelled from the spec: [utils/contacts.ts] is not among the sources
    (only its tests are).  Section 3 of the specification defines
    [canonicalDigits] as the digits-only form of the raw number, and
    section 4.4 leaves the tolerance for a leading country code to the
    equivalence test (equal canonical forms, or the shorter a suffix of
    the longer with at least the minimum number of significant digits). *)
Definition isDigit (c : N) : bool := ((48 <=? c) && (c <=? 57))%N.

Definition normalize (x : jsstring) : jsstring := filter isDigit x.

Record NormalizedPhone : Type := mkPhone {
  raw : jsstring;
  canonicalDigits : jsstring
}.

Definition normalized (x : jsstring) : NormalizedPhone :=
  mkPhone x (normalize x).

Definition MIN_SIGNIFICANT_DIGITS : nat := 10.

Definition endsWith (s suffix : jsstring) : bool :=
  startsWith (rev s) (rev suffix).

Definition equivalent (a b : jsstring) : bool :=
  let a' := normalize a in
  let b' := normalize b in
  jsstring_eqb a' b'
  || (MIN_SIGNIFICANT_DIGITS <=? List.length a')%nat && endsWith b' a'
  || (MIN_SIGNIFICANT_DIGITS <=? List.length b')%nat && endsWith a' b'.

End Contacts.

(** ** Vocabulary of the properties *)

Arguments lit : simpl never.
Arguments numberToString : simpl never.

Definition grantedMessage (app : App) : jsstring :=
  appName app ++ lit " access is already granted.".

(** A host whose bridge answers the dispatches of a call with [replies],
    in order, and lets any further dispatch time out; its file system
    accepts every write and its [Date] constructor is [parse]. *)
Definition hostWith (replies : list Reply) (parse : JsValue -> option Z)
  : Host :=
  mkHost (fun n _ => nth n replies (Rejected (lit "timed out")))
         (fun _ _ => None) 0 parse
         (fun _ => []) (fun _ => []) (fun _ => []) (fun t _ => t)
         (fun s => s) (fun _ => []) [].

(** The same, with a [Date] constructor that parses nothing. *)
Definition hostReplying (replies : list Reply) : Host :=
  hostWith replies (fun _ => None).

(** A [Date] constructor for examples: a string of one decimal digit is
    the time value of that digit. *)
Definition digitDate (v : JsValue) : option Z :=
  match v with
  | VString [c] =>
      if ((48 <=? c) && (c <=? 57))%N then Some (Z.of_N c - 48)%Z else None
  | _ => None
  end.

(** A host on which automation is not permitted. *)
Definition refusingHost : Host :=
  hostReplying [Rejected (lit "Not authorized to send Apple events")].

(** Some dispatch of the call was rejected by the native side. *)
Definition nativeFailure (t : Trace) : bool :=
  existsb (fun e => isRejected (snd e)) t.

(** Some access probe of the call was rejected. *)
Definition probeRefused (t : Trace) : bool :=
  existsb (fun e => isProbe (fst e) && isRejected (snd e)) t.

(** The read and search operations. *)
Definition isReadOperation (c : Call) : bool :=
  match c with
  | GetUnreadMails _ | SearchMails _ _ | GetAllNotes | FindNote _
  | GetEvents _ _ _ | SearchEvents _ _ _ _ | GetAllLists
  | GetAllReminders _ | SearchReminders _ => true
  | _ => false
  end.

(** An explicit failure: a thrown error, or a result record with
    [success = false] that carries [msg]. *)
Definition explicitFailure (msg : jsstring) (o : Outcome Answer) : Prop :=
  match o with
  | Thrown _ => True
  | Returned a => failureMessage a = Some msg
  end.

(** What each operation does with a refused probe. *)
Inductive DenialPolicy : Type :=
| RethrowsWithPrefix (prefix : jsstring)
| ReportsFailure
| ReturnsEmpty.

Definition denialPolicy (c : Call) : DenialPolicy :=
  match c with
  | SendMail _ _ _ _ _ => RethrowsWithPrefix (lit "Error sending email: ")
  | CreateReminder _ _ _ _ =>
      RethrowsWithPrefix (lit "Failed to create reminder: ")
  | CreateNote _ _ _ | GetNotesFromFolder _ | GetRecentNotesFromFolder _ _
  | GetNotesByDateRange _ _ _ _ | OpenEvent _ | CreateEvent _ _ _ _ _ _ _
  | OpenReminder _ => ReportsFailure
  | _ => ReturnsEmpty
  end.

(** The call has an empty or whitespace-only search term, note title,
    reminder name, or mail recipient, subject or body. *)
Definition blankArgument (c : Call) : bool :=
  match c with
  | SearchMails term _ => isBlank term
  | SendMail to subject body _ _ =>
      isBlank to || isBlank subject || isBlank body
  | FindNote text => isBlank text
  | CreateNote title _ _ => isBlank title
  | SearchEvents text _ _ _ => isBlank text
  | SearchReminders text => isBlank text
  | CreateReminder name _ _ _ => isBlank name
  | OpenReminder text => isBlank text
  | _ => false
  end.

(** The same, for the operations that validate the argument themselves. *)
Definition validatedBlank (c : Call) : bool :=
  match c with
  | SearchEvents _ _ _ _ | OpenReminder _ => false
  | _ => blankArgument c
  end.

(** The outcome of a call rejected for a blank argument, once access is
    granted. *)
Definition blankRejection (c : Call) : Outcome Answer :=
  match c with
  | SearchMails _ _ => Returned (Emails [])
  | SendMail to subject body _ _ =>
      Thrown (lit "Error sending email: " ++
              (if isBlank to then lit "To address is required"
               else if isBlank subject then lit "Subject is required"
               else lit "Email body is required"))
  | FindNote _ => Returned (NoteList [])
  | CreateNote _ _ _ =>
      Returned (NoteCreation
                  (Notes.mkCreateNoteResult false None
                     (Some (lit "Note title cannot be empty")) None None))
  | SearchReminders _ => Returned (ReminderItems [])
  | CreateReminder _ _ _ _ =>
      Thrown (lit "Failed to create reminder: "
              ++ lit "Reminder name cannot be empty")
  | _ => Returned (Values [])
  end.

(** An empty result or a failure. *)
Definition rejects (o : Outcome Answer) : Prop :=
  match o with
  | Thrown _ => True
  | Returned a =>
      isEmptyCollection a = true \/ exists m, failureMessage a = Some m
  end.

(** The inputs that [createEvent] refuses. *)
Definition invalidEventInput (h : Host) (title startDate endDate : jsstring)
  : bool :=
  isEmpty (trim title)
  || ((isEmpty startDate || isEmpty endDate)
      || match newDate h (VString startDate), newDate h (VString endDate) with
         | Some start, Some stop => (stop <=? start)%Z
         | _, _ => true
         end).

Definition eventValidationMessages : list jsstring :=
  [lit "Event title cannot be empty";
   lit "Start date and end date are required";
   lit "Invalid date format. Please use ISO format (YYYY-MM-DDTHH:mm:ss.sssZ)";
   lit "End date must be after start date"].

(** During the call the native side answered the script built from
    template [tpl] with the text [out]. *)
Definition replied (t : Trace) (tpl : Template) (out : jsstring) : Prop :=
  exists s, In (s, Resolved out) t /\ template s = tpl.

(** ** Vocabulary of the further properties *)

(** The prefix that an operation puts in front of what it throws. *)
Definition throwPrefix (c : Call) : option jsstring :=
  match c with
  | SendMail _ _ _ _ _ => Some (lit "Error sending email: ")
  | CreateReminder _ _ _ _ => Some (lit "Failed to create reminder: ")
  | _ => None
  end.

(** The scripts of a call other than access probes. *)
Definition realScripts (l : list Script) : list Script :=
  filter (fun s => negb (isProbe s)) l.

(** The temporary files of [createNote] and [sendMail]:
    [`/tmp/note-content-${Date.now()}.txt`] and
    [`/tmp/email-body-${Date.now()}.txt`]. *)
Definition noteTempFile (h : Host) : jsstring :=
  lit "/tmp/note-content-" ++ numberToString (dateNow h) ++ lit ".txt".

Definition mailTempFile (h : Host) : jsstring :=
  lit "/tmp/email-body-" ++ numberToString (dateNow h) ++ lit ".txt".

(** A host like [hostReplying] on which nothing can be written under
    [/tmp]; writes elsewhere go through. *)
Definition tmpUnwritableHost (replies : list Reply) : Host :=
  mkHost (fun n _ => nth n replies (Rejected (lit "timed out")))
         (fun path _ =>
            if startsWith path (lit "/tmp/")
            then Some (lit "ENOSPC: no space left on device")
            else None)
         0 (fun _ => None)
         (fun _ => []) (fun _ => []) (fun _ => []) (fun t _ => t)
         (fun s => s) (fun _ => []) [].

(** [arg || null] for an optional string argument. *)
Definition givenOrNull (arg : option jsstring) : option jsstring :=
  match arg with
  | Some d => if isEmpty d then None else Some d
  | None => None
  end.

(** Every double quote of [s] comes right after a backslash;
    [afterBackslash] tells whether the code unit before [s] is one. *)
Fixpoint quotesGuarded (afterBackslash : bool) (s : jsstring) : bool :=
  match s with
  | [] => true
  | c :: rest =>
      (negb (c =? 34)%N || afterBackslash)
      && quotesGuarded (c =? 92)%N rest
  end.

(** What the callbacks of [getAllNotes], [findNote] and [getAllLists]
    make of an item without the properties they read. *)
Definition placeholderNote : Notes.Note :=
  Notes.mkNote (VString (lit "Untitled Note")) (VString []) None None.

Definition placeholderList : Reminders.ReminderList :=
  Reminders.mkList (VString (lit "Untitled List"))
    (VString (lit "unknown-id")).

(** What every message built by [getLatestMails] satisfies. *)
Definition wellFormedEmail (account : jsstring) (e : Mail.EmailMessage)
  : Prop :=
  Mail.isRead e = false /\
  Mail.subject e <> [] /\ Mail.sender e <> [] /\ Mail.content e <> [] /\
  exists box, box <> [] /\ Mail.mailbox e = account ++ lit " - " ++ box.

(** ** Proof tools *)

Ltac unfold_ops :=
  cbv beta iota zeta delta
    [perform
     Mail.getUnreadMails Mail.searchMails Mail.sendMail Mail.getMailboxes
     Mail.getAccounts Mail.getMailboxesForAccount Mail.getLatestMails
     Notes.getAllNotes Notes.findNote Notes.createNote
     Notes.getNotesFromFolder Notes.getRecentNotesFromFolder
     Notes.getNotesByDateRange
     Calendar.searchEvents Calendar.openEvent Calendar.getEvents
     Calendar.createEvent
     Reminders.getAllLists Reminders.getAllReminders
     Reminders.searchReminders Reminders.createReminder
     Reminders.openReminder Reminders.getRemindersFromListById
     defaultTo] in *.

(** Unfolds the monadic plumbing of a call. *)
Ltac unfold_task :=
  cbv beta iota zeta delta
    [run result dispatched fmap tryCatch bind ret throw host runAppleScript
     fsWriteFileSync consoleError tryUnlinkSync checkAccess fst snd
     Access.hasAccess Access.message negb
     asArrayOrSingleton asArrayOrEmpty isArray arrayItems truthy
     mapTask Notes.toNote Reminders.toList Calendar.toEvent readProp getProp]
    in *;
  cbn [List.length app Nat.eqb] in *.

(** * Properties *)

(** ** The built-ins and the operations on concrete inputs *)

Example trim_strips_both_ends :
  trim (lit "  milk, eggs ") = lit "milk, eggs".
Proof. reflexivity. Qed.

Example trim_strips_unicode_space :
  trim [12288%N; 65%N; 8232%N; 10%N] = [65%N].
Proof. reflexivity. Qed.

Example isBlank_examples :
  isBlank [] = true /\ isBlank (lit "   ") = true /\ isBlank (lit " a ") = false.
Proof. repeat split. Qed.

Example split_sentinel :
  split 58 (lit "SUCCESS:Notes:true") = [lit "SUCCESS"; lit "Notes"; lit "true"].
Proof. reflexivity. Qed.

Example split_empty : split 58 [] = [[]].
Proof. reflexivity. Qed.

Example replaceFirst_error :
  replaceFirst (lit "ERROR:") [] (lit "ERROR:Folder not found: ERROR:x")
  = lit "Folder not found: ERROR:x".
Proof. reflexivity. Qed.

Example matchBraces_example :
  Mail.matchBraces None (lit "x{subject:Hi, sender:me}, {}{{y}")
  = [lit "{subject:Hi, sender:me}"; lit "{{y}"].
Proof. reflexivity. Qed.

Example getLatestMails_example :
  run (Mail.getLatestMails (lit "Work") None)
    (hostReplying
       [Resolved (lit "Mail");
        Resolved (lit "{subject:Hello, sender:ann@example.com, mailbox:INBOX, content:See you: soon}")])
  = (Returned
       [Mail.mkEmail (lit "Hello") (lit "ann@example.com") []
          (lit "See you: soon") false (lit "Work - INBOX")],
     [(probeScript AppMail, Resolved (lit "Mail"));
      (Mail.latestMailsScript (lit "Work") 5,
       Resolved (lit "{subject:Hello, sender:ann@example.com, mailbox:INBOX, content:See you: soon}"))]).
Proof. reflexivity. Qed.

Example getAllNotes_example :
  run Notes.getAllNotes
    (hostReplying [Resolved (lit "Notes"); Resolved (lit "name:A, content:B")])
  = (Returned
       [Notes.mkNote (VString (lit "Untitled Note")) (VString []) None None],
     [(probeScript AppNotes, Resolved (lit "Notes"));
      (Notes.allNotesScript, Resolved (lit "name:A, content:B"))]).
Proof. reflexivity. Qed.

Example sendMail_example :
  result (Mail.sendMail (lit "a@example.com") (lit "Hi") (lit " Hello ")
            None None)
    (hostReplying [Resolved (lit "Mail"); Resolved (lit "SUCCESS")])
  = Returned (lit "Email sent to a@example.com with subject " ++ dq
              ++ lit "Hi" ++ dq).
Proof. reflexivity. Qed.

Example createEvent_example :
  run (Calendar.createEvent (lit "Review") (lit "1") (lit "2")
         None None None None)
    (hostWith [Resolved (lit "Calendar"); Resolved (lit "E-42")] digitDate)
  = (Returned (Calendar.mkEventResult true
                 (lit "Event " ++ dq ++ lit "Review" ++ dq
                  ++ lit " created successfully.")
                 (Some (lit "E-42"))),
     [(probeScript AppCalendar, Resolved (lit "Calendar"));
      (mkScript TplCreateEvent
         [[]; []; lit "Calendar"; lit "Review"; lit "false"; []; []; []; []],
       Resolved (lit "E-42"))]).
Proof. reflexivity. Qed.

Example createReminder_example :
  result (Reminders.createReminder (lit "Call Bob") None None None)
    (hostReplying [Resolved (lit "Reminders"); Resolved (lit "SUCCESS:Inbox")])
  = Returned (Reminders.mkReminder (lit "Call Bob") (lit "created-reminder-id")
                [] false None (lit "Inbox")).
Proof. reflexivity. Qed.

Example openReminder_never_finds_a_reminder :
  run (Reminders.openReminder (lit "Call"))
    (hostReplying [Resolved (lit "Reminders"); Resolved (lit "Reminders");
                   Resolved (lit "SUCCESS:reminder_search_not_implemented_for_performance")])
  = (Returned (Reminders.mkOpenReminderResult false
                 (lit "No matching reminders found") None),
     [(probeScript AppReminders, Resolved (lit "Reminders"));
      (probeScript AppReminders, Resolved (lit "Reminders"));
      (Reminders.searchRemindersScript,
       Resolved (lit "SUCCESS:reminder_search_not_implemented_for_performance"))]).
Proof. reflexivity. Qed.

Example phone_formats_equivalent :
  Contacts.normalize (lit "+1 (999) 999-9999") = lit "19999999999" /\
  Contacts.equivalent (lit "+1 9999999999") (lit "9999999999") = true /\
  Contacts.equivalent (lit "9999999999") (lit "9999999998") = false.
Proof. repeat split. Qed.

(** ** The access probe *)

(** The probe never throws, dispatches exactly its identity query, and
    its answer is decided by the reply to that query. *)
Lemma requestAccess_run (app : App) (h : Host) (t : Trace) :
  requestAccess app h t =
  (Returned
     (match osascript h (List.length t) (probeScript app) with
      | Resolved _ => Access.mkAccess true (grantedMessage app)
      | Rejected _ => Access.mkAccess false (accessDeniedMessage app)
      end),
   t ++ [(probeScript app, osascript h (List.length t) (probeScript app))]).
Proof.
  destruct app; cbn [requestAccess];
    unfold Mail.requestMailAccess, Mail.checkMailAccess,
      Notes.requestNotesAccess, Notes.checkNotesAccess,
      Calendar.requestCalendarAccess, Calendar.checkCalendarAccess,
      Reminders.requestRemindersAccess, Reminders.checkRemindersAccess;
    unfold_task;
    destruct (osascript h (List.length t) _); reflexivity.
Qed.

Lemma requestMailAccess_run h t :
  Mail.requestMailAccess h t = requestAccess AppMail h t.
Proof. reflexivity. Qed.

Lemma requestNotesAccess_run h t :
  Notes.requestNotesAccess h t = requestAccess AppNotes h t.
Proof. reflexivity. Qed.

Lemma requestCalendarAccess_run h t :
  Calendar.requestCalendarAccess h t = requestAccess AppCalendar h t.
Proof. reflexivity. Qed.

Lemma requestRemindersAccess_run h t :
  Reminders.requestRemindersAccess h t = requestAccess AppReminders h t.
Proof. reflexivity. Qed.

Lemma probe_granted (app : App) (h : Host) (r : Access.AccessCheckResult) :
  result (requestAccess app) h = Returned r ->
  Access.hasAccess r = true ->
  exists out, osascript h 0 (probeScript app) = Resolved out.
Proof.
  unfold result, run. rewrite requestAccess_run. cbn [fst List.length].
  destruct (osascript h 0 (probeScript app)) as [out | e];
    intros [= <-] Hgranted; [eexists; reflexivity | discriminate Hgranted].
Qed.

Lemma probe_denied (app : App) (h : Host) (r : Access.AccessCheckResult) :
  result (requestAccess app) h = Returned r ->
  Access.hasAccess r = false ->
  Access.message r = accessDeniedMessage app /\
  exists e, osascript h 0 (probeScript app) = Rejected e.
Proof.
  unfold result, run. rewrite requestAccess_run. cbn [fst List.length].
  destruct (osascript h 0 (probeScript app)) as [out | e];
    intros [= <-] Hdenied; [discriminate Hdenied |].
  split; [reflexivity | eexists; reflexivity].
Qed.

Ltac probe_step :=
  rewrite ?requestMailAccess_run, ?requestNotesAccess_run,
    ?requestCalendarAccess_run, ?requestRemindersAccess_run;
  rewrite ?requestAccess_run.

Ltac break_step :=
  match goal with
  | |- context [match osascript ?h ?n ?s with _ => _ end] =>
      destruct (osascript h n s) eqn:?
  | |- context [match writeFileSync ?h ?p ?d with _ => _ end] =>
      destruct (writeFileSync h p d) eqn:?
  | |- context [match newDate ?h ?v with _ => _ end] =>
      destruct (newDate h v) eqn:?
  | |- context [if ?b then _ else _] => destruct b eqn:?
  end.

(** Closes a branch in which every blank test failed although [Hblank]
    says that one of them holds. *)
Ltac not_blank Hblank :=
  unfold isBlank in *;
  repeat match goal with
         | H : ?b = false |- _ => rewrite H in Hblank
         end;
  discriminate Hblank.

(** Runs a call symbolically, splitting on every reply of the host and
    on every test of the code. *)
Ltac exec :=
  unfold_ops; unfold_task; probe_step; unfold_task;
  repeat (break_step; unfold_task; probe_step; unfold_task).

(** C2. Whatever the bridge answers and whatever was dispatched before,
    each of the four access probes returns (it never throws), and when
    the returned record has [hasAccess = false] its message is not
    empty, names the application and contains the marker [access]. *)
Theorem denied_probe_message_is_actionable (app : App) (h : Host) (t : Trace) :
  exists r t',
    requestAccess app h t = (Returned r, t') /\
    (Access.hasAccess r = false ->
     Access.message r <> [] /\
     includes (Access.message r) (appName app) = true /\
     includes (Access.message r) (lit "access") = true).
Proof.
  rewrite requestAccess_run.
  destruct (osascript h (List.length t) (probeScript app)) as [out | e];
    eexists; eexists; (split; [reflexivity |]); cbn [Access.hasAccess].
  - discriminate.
  - intros _. destruct app; vm_compute; repeat split; discriminate.
Qed.

Lemma denied_probe_message_is_actionable_witness :
  Mail.accessDeniedMessage <> [] /\
  includes Mail.accessDeniedMessage (appName AppMail) = true /\
  includes Mail.accessDeniedMessage (lit "access") = true.
Proof.
  destruct (denied_probe_message_is_actionable AppMail refusingHost [])
    as (r & t' & Hrun & Hmessage).
  rewrite requestAccess_run in Hrun. cbn in Hrun.
  injection Hrun as <- _.
  apply Hmessage. reflexivity.
Defined.

(** The conversion of [getEvents] and [searchEvents] yields an event only
    from a non-empty array: a text, and the empty list that the search
    script returns, both give no event. *)
Remark no_event_without_array_item (v : JsValue) (h : Host) (t : Trace) :
  (forall item items, v <> VArray (item :: items)) ->
  mapTask Calendar.toEvent (asArrayOrEmpty v) h t = (Returned [], t).
Proof.
  intros Hnot. destruct v as [| | b | s | [| item items] | fields];
    try reflexivity.
  destruct (Hnot item items eq_refl).
Qed.

(** C8. On every host and for every argument, [searchMails],
    [getUnreadMails], [searchReminders], [getAllReminders],
    [getRemindersFromListById] and [searchEvents] return the empty
    list: whether access is refused, the bridge fails, or the script
    replies, no email, reminder or event reaches the caller. *)
Theorem stubbed_queries_return_nothing (h : Host) :
  (forall term limit, result (Mail.searchMails term limit) h = Returned []) /\
  (forall limit, result (Mail.getUnreadMails limit) h = Returned []) /\
  (forall text, result (Reminders.searchReminders text) h = Returned []) /\
  (forall l, result (Reminders.getAllReminders l) h = Returned []) /\
  (forall i props,
      result (Reminders.getRemindersFromListById i props) h = Returned []) /\
  (forall text limit from to,
      result (Calendar.searchEvents text limit from to) h = Returned []).
Proof.
  repeat split; intros; exec; reflexivity.
Qed.

(** C6. A read or search operation never throws, and when the native
    side rejected any dispatch of the call (an error or a timeout of
    the probe or of the query) what it returns is the empty collection. *)
Theorem read_operations_swallow_native_errors (c : Call) (h : Host) :
  isReadOperation c = true ->
  exists a,
    result (perform c) h = Returned a /\
    (nativeFailure (snd (run (perform c) h)) = true ->
     isEmptyCollection a = true).
Proof.
  intros Hread.
  destruct c; try discriminate Hread; clear Hread; exec;
    (eexists; split; [reflexivity |]);
    cbn; intros Hfail; first [reflexivity | discriminate Hfail].
Qed.

Lemma read_operations_swallow_native_errors_witness :
  exists a,
    result (perform GetAllNotes) refusingHost = Returned a /\
    isEmptyCollection a = true.
Proof.
  destruct (read_operations_swallow_native_errors GetAllNotes refusingHost
              eq_refl) as (a & Hres & Hempty).
  exists a. split; [exact Hres | apply Hempty; reflexivity].
Defined.

(** C4. Every operation dispatches the access probe of its application
    first.  When that probe reports [hasAccess = false], the probe is
    the only script dispatched during the call; more generally, once any
    probe of the call was refused, nothing but probes was dispatched. *)
Theorem probe_first_and_gates_dispatch (c : Call) (h : Host) :
  (exists rest, dispatched (perform c) h = probeScript (appOf c) :: rest) /\
  (forall r,
      result (requestAccess (appOf c)) h = Returned r ->
      Access.hasAccess r = false ->
      dispatched (perform c) h = [probeScript (appOf c)]) /\
  (probeRefused (snd (run (perform c) h)) = true ->
   forallb isProbe (dispatched (perform c) h) = true).
Proof.
  split; [| split].
  - destruct c; exec; cbn [scripts map fst appOf]; eexists; reflexivity.
  - intros r Hprobe Hdenied.
    unfold result, run in Hprobe. rewrite requestAccess_run in Hprobe.
    cbn [fst List.length] in Hprobe.
    destruct (osascript h 0 (probeScript (appOf c))) as [out | e] eqn:Hreply;
      injection Hprobe as <-; [discriminate Hdenied |].
    destruct c; cbn [appOf] in Hreply; unfold_ops; unfold_task; probe_step;
      unfold_task; rewrite Hreply; reflexivity.
  - destruct c; exec; cbn; intros Hrefused;
      first [reflexivity | discriminate Hrefused].
Qed.

Lemma probe_first_and_gates_dispatch_witness :
  dispatched (perform (FindNote (lit "groceries"))) refusingHost
  = [probeScript AppNotes].
Proof.
  apply (probe_first_and_gates_dispatch (FindNote (lit "groceries"))
           refusingHost)
    with (r := Access.mkAccess false Notes.accessDeniedMessage);
    reflexivity.
Defined.

(** C1, as the code has it.  When the probe reports [hasAccess = false]:
    [sendMail] and [createReminder] throw an error whose message is the
    probe's message behind the operation's own prefix; [createNote],
    [getNotesFromFolder], [getRecentNotesFromFolder],
    [getNotesByDateRange], [createEvent], [openEvent] and [openReminder]
    return a record with [success = false] and the probe's message; every
    other operation catches the refusal and returns the empty list. *)
Theorem denied_access_outcome (c : Call) (h : Host)
  (r : Access.AccessCheckResult) :
  result (requestAccess (appOf c)) h = Returned r ->
  Access.hasAccess r = false ->
  match denialPolicy c with
  | RethrowsWithPrefix prefix =>
      result (perform c) h = Thrown (prefix ++ Access.message r)
  | ReportsFailure =>
      exists a, result (perform c) h = Returned a /\
                failureMessage a = Some (Access.message r)
  | ReturnsEmpty =>
      exists a, result (perform c) h = Returned a /\
                isEmptyCollection a = true
  end.
Proof.
  intros Hprobe Hdenied.
  unfold result, run in Hprobe. rewrite requestAccess_run in Hprobe.
  cbn [fst List.length] in Hprobe.
  destruct (osascript h 0 (probeScript (appOf c))) as [out | e] eqn:Hreply;
    injection Hprobe as <-; [discriminate Hdenied |].
  destruct c; cbn [appOf] in Hreply; cbn [denialPolicy];
    unfold_ops; unfold_task; probe_step; unfold_task; rewrite Hreply;
    unfold_task;
    first [reflexivity | eexists; split; reflexivity].
Qed.

Lemma denied_access_outcome_witness :
  result (perform (SendMail (lit "a@example.com") (lit "Hi") (lit "Hello")
                     None None)) refusingHost
  = Thrown (lit "Error sending email: " ++ Mail.accessDeniedMessage).
Proof.
  apply (@denied_access_outcome
           (SendMail (lit "a@example.com") (lit "Hi") (lit "Hello") None None)
           refusingHost (Access.mkAccess false Mail.accessDeniedMessage));
    reflexivity.
Defined.

(** C1, as stated, fails: on a host that refuses automation the probe of
    Mail reports [hasAccess = false], and [getUnreadMails] returns the
    empty list, which is neither a thrown error nor a failure record. *)
Lemma denied_access_is_swallowed_by_getUnreadMails :
  (exists r, result (requestAccess AppMail) refusingHost = Returned r /\
             Access.hasAccess r = false) /\
  result (perform (GetUnreadMails None)) refusingHost = Returned (Emails []) /\
  ~ explicitFailure Mail.accessDeniedMessage
      (result (perform (GetUnreadMails None)) refusingHost).
Proof.
  split; [| split].
  - eexists; split; reflexivity.
  - reflexivity.
  - cbn. discriminate.
Qed.

(** C3, as the code has it.  [searchMails], [findNote],
    [searchReminders], [createNote], [createReminder] and [sendMail]
    check their textual argument after the access probe and before
    their own script: on a blank argument exactly one script is
    dispatched, the probe, and the call ends in an empty result or a
    failure; when the probe granted access, that outcome is the
    operation's own rejection of the input. *)
Theorem blank_argument_rejected_after_probe (c : Call) (h : Host) :
  validatedBlank c = true ->
  dispatched (perform c) h = [probeScript (appOf c)] /\
  rejects (result (perform c) h) /\
  (forall r,
      result (requestAccess (appOf c)) h = Returned r ->
      Access.hasAccess r = true ->
      result (perform c) h = blankRejection c).
Proof.
  intros Hblank. split; [| split].
  - destruct c; try discriminate Hblank;
      cbn [validatedBlank blankArgument appOf] in Hblank;
      exec; try not_blank Hblank; reflexivity.
  - destruct c; try discriminate Hblank;
      cbn [validatedBlank blankArgument appOf] in Hblank;
      exec; try not_blank Hblank; cbn; eauto.
  - intros r Hr Hgranted.
    destruct (probe_granted _ _ Hr Hgranted) as [out Hout]. clear Hr Hgranted.
    destruct c; try discriminate Hblank;
      cbn [validatedBlank blankArgument appOf blankRejection] in *;
      unfold_ops; unfold_task; probe_step; unfold_task; rewrite Hout;
      unfold_task; unfold isBlank in *; repeat (break_step; unfold_task);
      try not_blank Hblank; reflexivity.
Qed.

Lemma blank_argument_rejected_after_probe_witness :
  dispatched (perform (CreateNote (lit "   ") (lit "body") None))
    (hostReplying [Resolved (lit "Notes")])
  = [probeScript AppNotes] /\
  result (perform (CreateNote (lit "   ") (lit "body") None))
    (hostReplying [Resolved (lit "Notes")])
  = Returned (NoteCreation
                (Notes.mkCreateNoteResult false None
                   (Some (lit "Note title cannot be empty")) None None)).
Proof.
  destruct (@blank_argument_rejected_after_probe
              (CreateNote (lit "   ") (lit "body") None)
              (hostReplying [Resolved (lit "Notes")]) eq_refl)
    as (Htraffic & _ & Hrejection).
  split; [exact Htraffic |].
  apply (Hrejection (Access.mkAccess true (grantedMessage AppNotes)));
    reflexivity.
Defined.

(** C3, as stated, fails: [searchMails] called with the empty search
    term on a host that grants access has dispatched one native command,
    the access probe, by the time it returns its empty result. *)
Lemma blank_search_still_dispatches_probe :
  blankArgument (SearchMails [] None) = true /\
  result (perform (SearchMails [] None)) (hostReplying [Resolved (lit "Mail")])
  = Returned (Emails []) /\
  dispatched (perform (SearchMails [] None))
    (hostReplying [Resolved (lit "Mail")])
  = [probeScript AppMail] /\
  dispatched (perform (SearchMails [] None))
    (hostReplying [Resolved (lit "Mail")]) <> [].
Proof.
  repeat split; try reflexivity. discriminate.
Qed.

Lemma startsWith_nonempty (s prefix : jsstring) :
  prefix <> [] -> startsWith s prefix = true -> isEmpty s = false.
Proof.
  destruct prefix as [| p prefix']; [congruence |].
  destruct s; [discriminate | reflexivity].
Qed.

(** Reads a [replied] hypothesis against the trace of the branch at hand:
    it either names the reply of the branch or is absurd. *)
Ltac read_reply H :=
  let s := fresh "s" in
  let Hin := fresh "Hin" in
  let Htpl := fresh "Htpl" in
  destruct H as (s & Hin & Htpl);
  cbn [In] in Hin;
  repeat match type of Hin with
         | _ \/ _ => destruct Hin as [Hin | Hin]
         end;
  try contradiction;
  inversion Hin; subst; clear Hin;
  try (cbn in Htpl; discriminate Htpl).

(** Splits the conjunctions among the recorded tests and looks for two
    that disagree. *)
Ltac tests_clash :=
  repeat match goal with
         | H : _ && _ = true |- _ =>
             apply andb_true_iff in H; destruct H
         end;
  congruence.

(** Closes a branch in which the test [result && result.startsWith(p)]
    failed although the reply starts with [p]. *)
Ltac prefix_clash :=
  match goal with
  | Hprefix : startsWith ?o ?p = true, Htest : _ && _ = false |- _ =>
      rewrite Hprefix, (@startsWith_nonempty o p) in Htest
        by (exact Hprefix || discriminate);
      discriminate Htest
  end.

(** C5, as the code has it.  For every text [out] that the native side
    returned to the operation's own script: [createNote] reports
    [success = false] unless [out] starts with [SUCCESS:];
    [sendMail] throws [Error sending email: Failed to send email] unless
    [out] is exactly [SUCCESS]; [getNotesFromFolder] reports
    [success = false] only when [out] starts with [ERROR:], and success
    with an empty list of notes for any other text, recognized or not;
    [getUnreadMails] returns the empty list whatever the text.  Only
    [sendMail] throws. *)
Theorem sentinel_replies_classified (h : Host) (out : jsstring) :
  (forall title body folder,
      replied (snd (run (Notes.createNote title body folder) h))
        TplCreateNote out ->
      startsWith out (lit "SUCCESS:") = false ->
      result (Notes.createNote title body folder) h =
      Returned (Notes.mkCreateNoteResult false None
                  (Some (lit "Failed to create note: "
                         ++ orElse out (lit "No result from AppleScript")))
                  None None)) /\
  (forall to subject body cc bcc,
      replied (snd (run (Mail.sendMail to subject body cc bcc) h))
        TplSendMail out ->
      jsstring_eqb out (lit "SUCCESS") = false ->
      result (Mail.sendMail to subject body cc bcc) h =
      Thrown (lit "Error sending email: " ++ lit "Failed to send email")) /\
  (forall folder,
      replied (snd (run (Notes.getNotesFromFolder folder) h))
        TplNotesFromFolder out ->
      result (Notes.getNotesFromFolder folder) h =
      Returned (if startsWith out (lit "ERROR:")
                then Notes.mkFolderNotesResult false None
                       (Some (replaceFirst (lit "ERROR:") [] out))
                else Notes.mkFolderNotesResult true (Some []) None)) /\
  (forall limit, result (Mail.getUnreadMails limit) h = Returned []).
Proof.
  repeat split.
  - intros title body folder.
    exec; intros Hreply Hprefix; read_reply Hreply;
      first [reflexivity | tests_clash].
  - intros to subject body cc bcc.
    exec; intros Hreply Hsuccess; read_reply Hreply;
      first [reflexivity | tests_clash].
  - intros folder.
    exec; intros Hreply; read_reply Hreply;
      try reflexivity; try tests_clash; prefix_clash.
  - intros limit. exec; reflexivity.
Qed.

Lemma sentinel_replies_classified_witness :
  result (Notes.createNote (lit "Plan") (lit "draft") None)
    (hostReplying [Resolved (lit "Notes"); Resolved (lit "execution error")])
  = Returned (Notes.mkCreateNoteResult false None
                (Some (lit "Failed to create note: execution error"))
                None None).
Proof.
  apply (proj1 (sentinel_replies_classified
                  (hostReplying [Resolved (lit "Notes");
                                 Resolved (lit "execution error")])
                  (lit "execution error"))).
  - vm_compute. eexists. split; [right; left; reflexivity | reflexivity].
  - reflexivity.
Defined.

(** C5, as stated, fails: the text [unexpected] carries neither sentinel
    prefix, yet [getNotesFromFolder] classifies it as a success with no
    notes, and on the same reply [sendMail] throws to its caller. *)
Lemma unrecognized_reply_is_success_for_getNotesFromFolder :
  startsWith (lit "unexpected") (lit "SUCCESS:") = false /\
  startsWith (lit "unexpected") (lit "ERROR:") = false /\
  run (Notes.getNotesFromFolder (lit "Work"))
    (hostReplying [Resolved (lit "Notes"); Resolved (lit "unexpected")])
  = (Returned (Notes.mkFolderNotesResult true (Some []) None),
     [(probeScript AppNotes, Resolved (lit "Notes"));
      (Notes.notesFromFolderScript (lit "Work"),
       Resolved (lit "unexpected"))]) /\
  result (Mail.sendMail (lit "a@example.com") (lit "Hi") (lit "Hello")
            None None)
    (hostReplying [Resolved (lit "Mail"); Resolved (lit "unexpected")])
  = Thrown (lit "Error sending email: Failed to send email").
Proof.
  repeat split; reflexivity.
Qed.

(** C9, as the code has it.  For every title that is not blank and
    every folder argument, given or not: when the probe grants access,
    the body is written to the temporary file, and the native side
    answers the note creation script with one of its [SUCCESS:] replies,
    [createNote] dispatches that script right after the probe and
    returns [success = true] with a note whose name is the title and
    whose content is the trimmed body; the reply of the default
    location, [SUCCESS:Notes:true], gives [usedDefaultFolder = true]
    and [folderName = "Notes"].  Nothing in [createNote] looks at
    whether the folder exists. *)
Theorem createNote_succeeds_whatever_the_folder
  (h : Host) (title body : jsstring) (folder : option jsstring)
  (access : Access.AccessCheckResult) (out : jsstring) :
  isBlank title = false ->
  result Notes.requestNotesAccess h = Returned access ->
  Access.hasAccess access = true ->
  writeFileSync h (noteTempFile h) (trim body) = None ->
  osascript h 1
    (Notes.createNoteScript (defaultTo (lit "Claude") folder)
       (noteTempFile h) title)
  = Resolved out ->
  startsWith out (lit "SUCCESS:") = true ->
  exists r,
    result (Notes.createNote title body folder) h = Returned r /\
    dispatched (Notes.createNote title body folder) h
    = [probeScript AppNotes;
       Notes.createNoteScript (defaultTo (lit "Claude") folder)
         (noteTempFile h) title] /\
    Notes.success r = true /\
    Notes.note r =
      Some (Notes.mkNote (VString title) (VString (trim body)) None None) /\
    Notes.message r = None /\
    (out = lit "SUCCESS:Notes:true" ->
     Notes.usedDefaultFolder r = Some true /\
     Notes.folderName r = Some (lit "Notes")).
Proof.
  intros Htitle Haccess Hgranted Hwrite Hreply Hprefix.
  destruct (probe_granted AppNotes h Haccess Hgranted) as [probed Hprobe].
  clear Haccess Hgranted.
  unfold noteTempFile in *.
  unfold_ops; unfold_task; probe_step; unfold_task.
  rewrite Hprobe; unfold_task. rewrite Htitle, Hwrite; unfold_task.
  rewrite Hreply; unfold_task.
  rewrite (@startsWith_nonempty out (lit "SUCCESS:"))
    by (exact Hprefix || discriminate).
  rewrite Hprefix. cbn [andb].
  eexists. split; [reflexivity |].
  split; [reflexivity |].
  split; [reflexivity | split; [reflexivity | split; [reflexivity |]]].
  intros ->. split; reflexivity.
Qed.

Lemma createNote_succeeds_whatever_the_folder_witness :
  exists r,
    result (Notes.createNote (lit "Shopping") (lit "  milk, eggs ")
              (Some (lit "Errands")))
      (hostReplying [Resolved (lit "Notes");
                     Resolved (lit "SUCCESS:Notes:true")])
    = Returned r /\
    Notes.success r = true /\
    Notes.note r =
      Some (Notes.mkNote (VString (lit "Shopping"))
              (VString (lit "milk, eggs")) None None) /\
    Notes.usedDefaultFolder r = Some true /\
    Notes.folderName r = Some (lit "Notes").
Proof.
  destruct (@createNote_succeeds_whatever_the_folder
              (hostReplying [Resolved (lit "Notes");
                             Resolved (lit "SUCCESS:Notes:true")])
              (lit "Shopping") (lit "  milk, eggs ") (Some (lit "Errands"))
              (Access.mkAccess true (grantedMessage AppNotes))
              (lit "SUCCESS:Notes:true")
              eq_refl eq_refl eq_refl eq_refl eq_refl eq_refl)
    as (r & Hres & _ & Hsuccess & Hnote & _ & Hdefault).
  exists r. destruct (Hdefault eq_refl) as [Hused Hfolder].
  repeat split; assumption.
Defined.

(** C9, as stated, fails.  The title of three spaces is not empty,
    access is granted and the native side answers every script with
    [SUCCESS:Notes:true], yet [createNote] returns [success = false]
    with [Note title cannot be empty], having dispatched the probe
    only.  And with a proper title on the same replies, a temporary
    file that cannot be written makes it return [success = false] as
    well. *)
Lemma whitespace_title_is_rejected_by_createNote :
  (lit "   " <> [] /\
   result Notes.requestNotesAccess
     (hostReplying [Resolved (lit "Notes");
                    Resolved (lit "SUCCESS:Notes:true")])
   = Returned (Access.mkAccess true (lit "Notes access is already granted.")) /\
   (forall script,
       osascript (hostReplying [Resolved (lit "Notes");
                                Resolved (lit "SUCCESS:Notes:true")])
         1 script
       = Resolved (lit "SUCCESS:Notes:true")) /\
   run (Notes.createNote (lit "   ") (lit "body") (Some (lit "Errands")))
     (hostReplying [Resolved (lit "Notes");
                    Resolved (lit "SUCCESS:Notes:true")])
   = (Returned (Notes.mkCreateNoteResult false None
                  (Some (lit "Note title cannot be empty")) None None),
      [(probeScript AppNotes, Resolved (lit "Notes"))])) /\
  run (Notes.createNote (lit "Plan") (lit "body") (Some (lit "Errands")))
    (tmpUnwritableHost [Resolved (lit "Notes");
                        Resolved (lit "SUCCESS:Notes:true")])
  = (Returned (Notes.mkCreateNoteResult false None
                 (Some (lit "Failed to create note: ENOSPC: no space left on device"))
                 None None),
     [(probeScript AppNotes, Resolved (lit "Notes"))]).
Proof.
  repeat split; try reflexivity. discriminate.
Qed.

(** C10. Whenever the title is blank, a date is missing, a date does
    not parse, or the end is not strictly after the start, [createEvent]
    returns [success = false] with a non-empty message (the refusal of
    the probe, or the message of the failed check), and the only script
    it dispatched is the access probe: the event creation script is
    never run. *)
Theorem createEvent_validates_before_dispatch
  (h : Host) (title startDate endDate : jsstring)
  (location notes : option jsstring) (isAllDay : option bool)
  (calendarName : option jsstring) :
  invalidEventInput h title startDate endDate = true ->
  exists m,
    result (Calendar.createEvent title startDate endDate location notes
              isAllDay calendarName) h
    = Returned (Calendar.mkEventResult false m None) /\
    In m (Calendar.accessDeniedMessage :: eventValidationMessages) /\
    m <> [] /\
    dispatched (Calendar.createEvent title startDate endDate location notes
                  isAllDay calendarName) h
    = [probeScript AppCalendar] /\
    ~ In TplCreateEvent
        (map template
           (dispatched (Calendar.createEvent title startDate endDate
                          location notes isAllDay calendarName) h)).
Proof.
  unfold invalidEventInput. intros Hinvalid.
  exec; try (cbn [orb] in Hinvalid; congruence);
    (eexists; split; [reflexivity |]);
    (split; [cbn; tauto |]);
    (split; [discriminate |]);
    (split; [reflexivity |]);
    cbn; intros [Habs | []]; discriminate Habs.
Qed.

Lemma createEvent_validates_before_dispatch_witness :
  exists m,
    result (Calendar.createEvent (lit "  ") (lit "2025-01-01") (lit "2025-01-02")
              None None None None) (hostReplying [Resolved (lit "Calendar")])
    = Returned (Calendar.mkEventResult false m None) /\
    m <> [] /\
    dispatched (Calendar.createEvent (lit "  ") (lit "2025-01-01")
                  (lit "2025-01-02") None None None None)
      (hostReplying [Resolved (lit "Calendar")])
    = [probeScript AppCalendar].
Proof.
  destruct (@createEvent_validates_before_dispatch
              (hostReplying [Resolved (lit "Calendar")])
              (lit "  ") (lit "2025-01-01") (lit "2025-01-02")
              None None None None eq_refl)
    as (m & Hres & _ & Hmessage & Htraffic & _).
  exists m. repeat split; assumption.
Defined.

(** C7. Normalization to canonical digits is idempotent. *)
Theorem normalize_idempotent (x : jsstring) :
  Contacts.normalize (Contacts.normalize x) = Contacts.normalize x.
Proof.
  unfold Contacts.normalize.
  induction x as [| c x IH]; [reflexivity |].
  cbn [filter]. destruct (Contacts.isDigit c) eqn:Hdigit; [| exact IH].
  cbn [filter]. rewrite Hdigit, IH. reflexivity.
Qed.

(** * Further properties of the modules *)

(** ** Strings *)

Lemma startsWith_app (p e : jsstring) : startsWith (p ++ e) p = true.
Proof.
  induction p as [| c p IH]; [destruct e; reflexivity |].
  cbn. rewrite N.eqb_refl. exact IH.
Qed.

Lemma jsstring_eqb_eq (a b : jsstring) : jsstring_eqb a b = true -> a = b.
Proof.
  unfold jsstring_eqb.
  destruct (list_eq_dec N.eq_dec a b); [trivial | discriminate].
Qed.

Lemma replaceFirst_prefix (p r s : jsstring) :
  startsWith s p = true -> replaceFirst p r s = r ++ skipn (List.length p) s.
Proof.
  intros Hprefix. destruct s; cbn [replaceFirst]; rewrite Hprefix; reflexivity.
Qed.

Lemma skipn_prefix (p s : jsstring) : skipn (List.length p) (p ++ s) = s.
Proof. induction p as [| c p IH]; [reflexivity | exact IH]. Qed.

(** The test [result && result.startsWith(p)] is the prefix test. *)
Lemma sentinel_test (out p : jsstring) :
  p <> [] ->
  (if isEmpty out then false else true) && startsWith out p = startsWith out p.
Proof.
  intros Hp. destruct (startsWith out p) eqn:Hprefix.
  - rewrite (@startsWith_nonempty out p Hp Hprefix). reflexivity.
  - apply andb_false_r.
Qed.

Lemma split_nonempty (sep : N) (s : jsstring) : split sep s <> [].
Proof.
  destruct s as [| c s]; cbn [split]; [discriminate |].
  destruct (c =? sep)%N; [discriminate |].
  destruct (split sep s); discriminate.
Qed.

Lemma split_without_separator (sep : N) (s : jsstring) :
  ~ In sep s -> split sep s = [s].
Proof.
  induction s as [| c s IH]; intros Hsep; [reflexivity |].
  cbn [split].
  destruct (c =? sep)%N eqn:Hc.
  - apply N.eqb_eq in Hc. subst c. destruct Hsep. left. reflexivity.
  - rewrite IH by (intros Hin; apply Hsep; right; exact Hin). reflexivity.
Qed.

Lemma split_at_first_separator (sep : N) (k v : jsstring) :
  ~ In sep k -> split sep (k ++ sep :: v) = k :: split sep v.
Proof.
  induction k as [| c k IH]; intros Hsep.
  - cbn [app split]. rewrite N.eqb_refl. reflexivity.
  - cbn [app split].
    destruct (c =? sep)%N eqn:Hc.
    + apply N.eqb_eq in Hc. subst c. destruct Hsep. left. reflexivity.
    + rewrite IH by (intros Hin; apply Hsep; right; exact Hin). reflexivity.
Qed.

(** [s.split(sep).join(sep)] is [s]. *)
Lemma join_split (sep : N) (s : jsstring) : join [sep] (split sep s) = s.
Proof.
  induction s as [| c s IH]; [reflexivity |].
  cbn [split]. destruct (c =? sep)%N eqn:Hc.
  - apply N.eqb_eq in Hc. subst c.
    pose proof (split_nonempty sep s) as Hne.
    destruct (split sep s) as [| p ps]; [congruence |].
    cbn [join app] in *. rewrite IH. reflexivity.
  - destruct (split sep s) as [| p ps] eqn:Hsplit.
    + destruct (split_nonempty sep s Hsplit).
    + destruct ps as [| q qs]; cbn [join app] in *; rewrite <- IH; reflexivity.
Qed.

Lemma isEmpty_trimStart (s : jsstring) :
  isEmpty (trimStart s) = forallb isWhiteSpace s.
Proof.
  induction s as [| c s IH]; [reflexivity |].
  cbn [trimStart forallb]. destruct (isWhiteSpace c); [exact IH | reflexivity].
Qed.

Lemma forallb_trimStart (s : jsstring) :
  forallb isWhiteSpace (trimStart s) = forallb isWhiteSpace s.
Proof.
  induction s as [| c s IH]; [reflexivity |].
  cbn [trimStart]. destruct (isWhiteSpace c) eqn:Hc.
  - cbn [forallb]. rewrite Hc. exact IH.
  - reflexivity.
Qed.

Lemma forallb_rev_eq {A} (f : A -> bool) (l : list A) :
  forallb f (rev l) = forallb f l.
Proof.
  induction l as [| a l IH]; [reflexivity |].
  cbn [rev forallb]. rewrite forallb_app, IH. cbn [forallb].
  rewrite andb_true_r. apply andb_comm.
Qed.

Lemma isEmpty_rev (l : jsstring) : isEmpty (rev l) = isEmpty l.
Proof.
  destruct l as [| a l]; [reflexivity |].
  cbn [rev]. destruct (rev l); reflexivity.
Qed.

(** X22. The blank test of the input validations,
    [!s || s.trim() === ""], holds exactly when every code unit of [s]
    is white space or a line terminator (the empty string included). *)
Theorem isBlank_iff_all_whitespace (s : jsstring) :
  isBlank s = forallb isWhiteSpace s.
Proof.
  unfold isBlank, trim, trimEnd.
  rewrite isEmpty_rev, isEmpty_trimStart, forallb_rev_eq, forallb_trimStart.
  destruct s; reflexivity.
Qed.

Lemma escapeQuotes_guarded (s : jsstring) :
  forall afterBackslash, quotesGuarded afterBackslash (escapeQuotes s) = true.
Proof.
  induction s as [| c s IH]; intros flag; [reflexivity |].
  unfold escapeQuotes in *. cbn [flat_map].
  destruct (c =? 34)%N eqn:Hc.
  - cbn [app quotesGuarded]. rewrite IH. reflexivity.
  - cbn [app quotesGuarded]. rewrite Hc, IH. reflexivity.
Qed.

(** X21. In the text that [escapeQuotes] produces every double quote
    comes right after a backslash; the text grows by one code unit
    per quote of the input, and an input without quotes is unchanged. *)
Theorem escapeQuotes_guards_every_quote (s : jsstring) :
  quotesGuarded false (escapeQuotes s) = true /\
  List.length (escapeQuotes s)
  = (List.length s + count_occ N.eq_dec s 34%N)%nat /\
  (~ In 34%N s -> escapeQuotes s = s).
Proof.
  split; [apply escapeQuotes_guarded | split].
  - induction s as [| c s IH]; [reflexivity |].
    unfold escapeQuotes in *. cbn [flat_map count_occ].
    rewrite length_app, IH.
    destruct (N.eq_dec c 34) as [-> | Hc].
    + cbn. lia.
    + apply N.eqb_neq in Hc. rewrite Hc. cbn. lia.
  - induction s as [| c s IH]; intros Hplain; [reflexivity |].
    unfold escapeQuotes in *. cbn [flat_map].
    destruct (c =? 34)%N eqn:Hc.
    + apply N.eqb_eq in Hc. subst c. destruct Hplain. left. reflexivity.
    + cbn [app]. f_equal. apply IH. intros Hin. apply Hplain. right. exact Hin.
Qed.

(** ** What the operations throw and dispatch *)

Lemma thrown_messages_carry_prefix (c : Call) (h : Host) :
  match result (perform c) h with
  | Thrown e => exists p, throwPrefix c = Some p /\ startsWith e p = true
  | Returned _ => True
  end.
Proof.
  destruct c; exec; try exact I;
    eexists; (split; [reflexivity | apply startsWith_app]).
Qed.

(** X1. Only [sendMail] and [createReminder] ever throw to their
    caller, and what they throw starts with the operation's own prefix,
    [Error sending email: ] or [Failed to create reminder: ]; the other
    twenty-one operations return on every host. *)
Theorem only_sendMail_and_createReminder_throw
  (c : Call) (h : Host) (e : jsstring) :
  result (perform c) h = Thrown e ->
  exists p, throwPrefix c = Some p /\ startsWith e p = true.
Proof.
  intros Hthrown. pose proof (thrown_messages_carry_prefix c h) as Hprefix.
  rewrite Hthrown in Hprefix. exact Hprefix.
Qed.

Lemma only_sendMail_and_createReminder_throw_witness :
  exists p,
    throwPrefix (CreateReminder [] None None None) = Some p /\
    startsWith (lit "Failed to create reminder: Reminder name cannot be empty")
      p = true.
Proof.
  apply (@only_sendMail_and_createReminder_throw
           (CreateReminder [] None None None)
           (hostReplying [Resolved (lit "Reminders")])).
  reflexivity.
Defined.

(** X2. No call dispatches more than one script besides access probes,
    nor more than two scripts in all; [openReminder], which probes
    twice, dispatches at most three. *)
Theorem dispatch_budget (c : Call) (h : Host) :
  (List.length (realScripts (dispatched (perform c) h)) <= 1)%nat /\
  (List.length (dispatched (perform c) h)
   <= match c with OpenReminder _ => 3 | _ => 2 end)%nat.
Proof.
  destruct c; exec; cbn; lia.
Qed.

(** X3. [openReminder] never opens anything: its search step always
    comes back empty, so on every host it returns [success = false]
    without a reminder, with the probe's refusal or
    [No matching reminders found], and the script that activates
    Reminders is never dispatched. *)
Theorem openReminder_never_opens (text : jsstring) (h : Host) :
  exists m,
    result (Reminders.openReminder text) h
    = Returned (Reminders.mkOpenReminderResult false m None) /\
    In m [Reminders.accessDeniedMessage; lit "No matching reminders found"] /\
    ~ In TplOpenReminders
        (map template (dispatched (Reminders.openReminder text) h)).
Proof.
  exec; (eexists; split; [reflexivity |]); (split; [cbn; tauto |]);
    cbn; intuition discriminate.
Qed.



(** X6. Once the reminder script has replied [out]: for
    [out = SUCCESS:<list>], [createReminder] returns the reminder with
    the given name, the fixed id [created-reminder-id], the given notes
    and due date, and [<list>] as its list; for any other [out] it
    throws [out] behind its prefix written twice.  The script carries
    the escaped name only: the requested list, the notes and the due
    date are not sent to Reminders. *)
Theorem createReminder_outcome
  (name : jsstring) (listName notes dueDate : option jsstring)
  (h : Host) (out : jsstring) :
  replied (snd (run (Reminders.createReminder name listName notes dueDate) h))
    TplCreateReminder out ->
  dispatched (Reminders.createReminder name listName notes dueDate) h
  = [probeScript AppReminders; mkScript TplCreateReminder [escapeQuotes name]]
  /\
  (forall list,
      out = lit "SUCCESS:" ++ list ->
      result (Reminders.createReminder name listName notes dueDate) h
      = Returned (Reminders.mkReminder name (lit "created-reminder-id")
                    (ifGiven notes []) false (givenOrNull dueDate) list)) /\
  (startsWith out (lit "SUCCESS:") = false ->
   result (Reminders.createReminder name listName notes dueDate) h
   = Thrown (lit "Failed to create reminder: "
             ++ lit "Failed to create reminder: " ++ out)).
Proof.
  unfold givenOrNull. revert out.
  exec; intros out Hreply; read_reply Hreply;
    rewrite sentinel_test in * by discriminate;
    (split; [reflexivity |]); split.
  - intros list ->. rewrite replaceFirst_prefix by apply startsWith_app.
    rewrite skipn_prefix. reflexivity.
  - congruence.
  - intros list ->. rewrite startsWith_app in *. discriminate.
  - reflexivity.
Qed.

Lemma createReminder_outcome_witness :
  result (Reminders.createReminder (lit "Call Bob") (Some (lit "Work"))
            (Some (lit "about the quote")) None)
    (hostReplying [Resolved (lit "Reminders"); Resolved (lit "SUCCESS:Inbox")])
  = Returned (Reminders.mkReminder (lit "Call Bob")
                (lit "created-reminder-id") (lit "about the quote") false
                None (lit "Inbox")).
Proof.
  refine (proj1 (proj2 (@createReminder_outcome (lit "Call Bob")
                          (Some (lit "Work")) (Some (lit "about the quote"))
                          None
                          (hostReplying [Resolved (lit "Reminders");
                                         Resolved (lit "SUCCESS:Inbox")])
                          (lit "SUCCESS:Inbox") _)) (lit "Inbox") eq_refl).
  vm_compute. eexists. split; [right; left; reflexivity | reflexivity].
Defined.

Lemma sendMail_result_shape
  (to subject body : jsstring) (cc bcc : option jsstring) (h : Host) :
  match result (Mail.sendMail to subject body cc bcc) h with
  | Returned s =>
      s = lit "Email sent to " ++ to ++ lit " with subject " ++ dq
          ++ subject ++ dq /\
      replied (snd (run (Mail.sendMail to subject body cc bcc) h))
        TplSendMail (lit "SUCCESS") /\
      isBlank to = false /\ isBlank subject = false /\ isBlank body = false
  | Thrown _ => True
  end.
Proof.
  unfold isBlank.
  exec; try exact I.
  match goal with H : jsstring_eqb _ _ = true |- _ =>
    apply jsstring_eqb_eq in H; subst end.
  repeat split.
  eexists. split; [right; left; reflexivity | reflexivity].
Qed.

(** X7. [sendMail] returns only when recipient, subject and body are
    not blank and the send script replied exactly [SUCCESS]; what it
    returns is then the confirmation naming the recipient and the
    subject as given. *)
Theorem sendMail_returns_only_on_SUCCESS
  (to subject body : jsstring) (cc bcc : option jsstring) (h : Host)
  (s : jsstring) :
  result (Mail.sendMail to subject body cc bcc) h = Returned s ->
  s = lit "Email sent to " ++ to ++ lit " with subject " ++ dq
      ++ subject ++ dq /\
  replied (snd (run (Mail.sendMail to subject body cc bcc) h))
    TplSendMail (lit "SUCCESS") /\
  isBlank to = false /\ isBlank subject = false /\ isBlank body = false.
Proof.
  intros Hreturned.
  pose proof (sendMail_result_shape to subject body cc bcc h) as Hshape.
  rewrite Hreturned in Hshape. exact Hshape.
Qed.

Lemma sendMail_returns_only_on_SUCCESS_witness :
  replied
    (snd (run (Mail.sendMail (lit "a@example.com") (lit "Hi") (lit " Hello ")
                 None None)
            (hostReplying [Resolved (lit "Mail"); Resolved (lit "SUCCESS")])))
    TplSendMail (lit "SUCCESS").
Proof.
  apply (@sendMail_returns_only_on_SUCCESS
           (lit "a@example.com") (lit "Hi") (lit " Hello ") None None
           (hostReplying [Resolved (lit "Mail"); Resolved (lit "SUCCESS")])
           (lit "Email sent to a@example.com with subject " ++ dq
            ++ lit "Hi" ++ dq)).
  reflexivity.
Defined.

(** X8. When access is granted and the input is valid but the write
    of the call's temporary file throws, [sendMail] and [createNote]
    stop there: the probe is the only script dispatched, [sendMail]
    throws the file system's message behind its prefix and
    [createNote] returns it in a [success = false] record. *)
Theorem write_failure_stops_before_script (h : Host) (e : jsstring) :
  (forall to subject body cc bcc out,
      osascript h 0 (probeScript AppMail) = Resolved out ->
      isBlank to = false -> isBlank subject = false -> isBlank body = false ->
      writeFileSync h (mailTempFile h) (trim body) = Some e ->
      run (Mail.sendMail to subject body cc bcc) h
      = (Thrown (lit "Error sending email: " ++ e),
         [(probeScript AppMail, Resolved out)])) /\
  (forall title body folder out,
      osascript h 0 (probeScript AppNotes) = Resolved out ->
      isBlank title = false ->
      writeFileSync h (noteTempFile h) (trim body) = Some e ->
      run (Notes.createNote title body folder) h
      = (Returned (Notes.mkCreateNoteResult false None
                     (Some (lit "Failed to create note: " ++ e)) None None),
         [(probeScript AppNotes, Resolved out)])).
Proof.
  unfold mailTempFile, noteTempFile. split.
  - intros to subject body cc bcc out Hprobe Hto Hsubject Hbody Hwrite.
    unfold isBlank in *.
    unfold_ops; unfold_task; probe_step; unfold_task.
    rewrite Hprobe; unfold_task. rewrite Hto, Hsubject, Hbody.
    rewrite Hwrite. reflexivity.
  - intros title body folder out Hprobe Htitle Hwrite.
    unfold_ops; unfold_task; probe_step; unfold_task.
    rewrite Hprobe; unfold_task. rewrite Htitle, Hwrite. reflexivity.
Qed.

Lemma write_failure_stops_before_script_witness :
  run (Mail.sendMail (lit "a@example.com") (lit "Hi") (lit " Hello ")
         None None)
    (tmpUnwritableHost [Resolved (lit "Mail"); Resolved (lit "SUCCESS")])
  = (Thrown (lit "Error sending email: "
             ++ lit "ENOSPC: no space left on device"),
     [(probeScript AppMail, Resolved (lit "Mail"))]).
Proof.
  apply (proj1 (@write_failure_stops_before_script
                  (tmpUnwritableHost [Resolved (lit "Mail");
                                      Resolved (lit "SUCCESS")])
                  (lit "ENOSPC: no space left on device")));
    reflexivity.
Defined.

(** ** Notes *)

(** X9. [getRecentNotesFromFolder] and [getNotesByDateRange] do what
    [getNotesFromFolder] does, with the same scripts and the same
    result, whatever the limit and the dates; and a folder read never
    returns a note: a success carries the empty list and no message, a
    failure carries a message and no list. *)
Theorem folder_readers_agree (folder : jsstring) (h : Host) :
  (forall limit,
      run (Notes.getRecentNotesFromFolder folder limit) h
      = run (Notes.getNotesFromFolder folder) h) /\
  (forall fromDate toDate limit,
      run (Notes.getNotesByDateRange folder fromDate toDate limit) h
      = run (Notes.getNotesFromFolder folder) h) /\
  exists r,
    result (Notes.getNotesFromFolder folder) h = Returned r /\
    (if Notes.folderSuccess r
     then Notes.folderNotes r = Some [] /\ Notes.folderMessage r = None
     else Notes.folderNotes r = None /\ Notes.folderMessage r <> None).
Proof.
  split; [| split].
  - intros limit. exec; unfold Notes.limitNotes, sliceTo;
      cbn [Notes.folderSuccess Notes.folderNotes];
      rewrite ?firstn_nil; reflexivity.
  - intros fromDate toDate limit. exec; unfold Notes.limitNotes, sliceTo;
      cbn [Notes.folderSuccess Notes.folderNotes];
      rewrite ?firstn_nil; reflexivity.
  - exec; eexists; (split; [reflexivity |]); cbn; split;
      first [reflexivity | discriminate].
Qed.

(** X10. The failure text of the folder script comes back without its
    sentinel: when the script replied [ERROR:<detail>],
    [getNotesFromFolder] returns [success = false] with [<detail>] as
    the message. *)
Theorem getNotesFromFolder_error_message
  (folder : jsstring) (h : Host) (detail : jsstring) :
  replied (snd (run (Notes.getNotesFromFolder folder) h)) TplNotesFromFolder
    (lit "ERROR:" ++ detail) ->
  result (Notes.getNotesFromFolder folder) h
  = Returned (Notes.mkFolderNotesResult false None (Some detail)).
Proof.
  assert (Hprefix : startsWith (lit "ERROR:" ++ detail) (lit "ERROR:") = true)
    by apply startsWith_app.
  assert (Hstrip : replaceFirst (lit "ERROR:") [] (lit "ERROR:" ++ detail)
                   = detail).
  { rewrite replaceFirst_prefix by exact Hprefix. apply skipn_prefix. }
  remember (lit "ERROR:" ++ detail) as out eqn:Hout. clear Hout.
  revert out Hprefix Hstrip.
  exec; intros out Hprefix Hstrip Hreply; read_reply Hreply;
    rewrite ?sentinel_test in * by discriminate; try congruence.
Qed.

Lemma getNotesFromFolder_error_message_witness :
  result (Notes.getNotesFromFolder (lit "Work"))
    (hostReplying [Resolved (lit "Notes");
                   Resolved (lit "ERROR:Folder not found")])
  = Returned (Notes.mkFolderNotesResult false None
                (Some (lit "Folder not found"))).
Proof.
  apply (@getNotesFromFolder_error_message (lit "Work")
           (hostReplying [Resolved (lit "Notes");
                          Resolved (lit "ERROR:Folder not found")])
           (lit "Folder not found")).
  vm_compute. eexists. split; [right; left; reflexivity | reflexivity].
Defined.

(** X11. [createNote] decodes the reply [SUCCESS:<name>:<rest>] of its
    script at the colons: the folder it reports is [<name>], the text up
    to the next colon ([Notes] when that text is empty), so a folder
    name that itself contains a colon is cut at it; and
    [usedDefaultFolder] tells whether the field after it is [true]. *)
Theorem createNote_decodes_folder
  (title body : jsstring) (folder : option jsstring) (h : Host)
  (name rest : jsstring) :
  ~ In 58%N name ->
  replied (snd (run (Notes.createNote title body folder) h)) TplCreateNote
    (lit "SUCCESS:" ++ name ++ 58%N :: rest) ->
  exists r,
    result (Notes.createNote title body folder) h = Returned r /\
    Notes.success r = true /\
    Notes.folderName r = Some (orElse name (lit "Notes")) /\
    Notes.usedDefaultFolder r
    = Some (jsstring_eqb (hd [] (split 58 rest)) (lit "true")).
Proof.
  intros Hname.
  assert (Hsplit : split 58 (lit "SUCCESS:" ++ name ++ 58%N :: rest)
                   = lit "SUCCESS" :: name :: split 58 rest).
  { change (lit "SUCCESS:" ++ name ++ 58%N :: rest)
      with (lit "SUCCESS" ++ 58%N :: (name ++ 58%N :: rest)).
    rewrite split_at_first_separator by (vm_compute; intuition discriminate).
    rewrite split_at_first_separator by exact Hname. reflexivity. }
  assert (Hprefix : startsWith (lit "SUCCESS:" ++ name ++ 58%N :: rest)
                      (lit "SUCCESS:") = true) by apply startsWith_app.
  remember (lit "SUCCESS:" ++ name ++ 58%N :: rest) as out eqn:Hout.
  clear Hout. revert out Hsplit Hprefix.
  exec; intros out Hsplit Hprefix Hreply; read_reply Hreply;
    try prefix_clash.
  eexists. split; [reflexivity |].
  cbn [Notes.success Notes.folderName Notes.usedDefaultFolder].
  rewrite Hsplit. cbn [nth].
  repeat split. destruct (split 58 rest); reflexivity.
Qed.

Lemma createNote_decodes_folder_witness :
  exists r,
    result (Notes.createNote (lit "Plan") (lit "draft")
              (Some (lit "Q3: roadmap")))
      (hostReplying [Resolved (lit "Notes");
                     Resolved (lit "SUCCESS:Q3: roadmap:false")])
    = Returned r /\
    Notes.success r = true /\
    Notes.folderName r = Some (lit "Q3") /\
    Notes.usedDefaultFolder r = Some false.
Proof.
  apply (@createNote_decodes_folder (lit "Plan") (lit "draft")
           (Some (lit "Q3: roadmap"))
           (hostReplying [Resolved (lit "Notes");
                          Resolved (lit "SUCCESS:Q3: roadmap:false")])
           (lit "Q3") (lit " roadmap:false")).
  - vm_compute. intuition discriminate.
  - vm_compute. eexists. split; [right; left; reflexivity | reflexivity].
Defined.

(** ** The probe and the list readers *)

(** X12. A probe dispatches its identity query and nothing else, and
    what it returns is decided by whether that query resolved: neither
    the text the query printed nor the error of a rejected query reaches
    the caller, whose message is one of two fixed texts. *)
Theorem probe_answers_are_fixed_texts (app : App) (h : Host) (t : Trace) :
  exists r,
    requestAccess app h t
    = (Returned r,
       t ++ [(probeScript app, osascript h (List.length t) (probeScript app))])
    /\ Access.hasAccess r
       = negb (isRejected (osascript h (List.length t) (probeScript app)))
    /\ Access.message r
       = if Access.hasAccess r
         then appName app ++ lit " access is already granted."
         else accessDeniedMessage app.
Proof.
  rewrite requestAccess_run.
  destruct (osascript h (List.length t) (probeScript app));
    eexists; repeat split.
Qed.

(** X13. Whatever text the script printed, [getAllNotes], [findNote]
    and [getAllLists] return either nothing or a single item made of
    the defaults ([Untitled Note] with empty content, [Untitled List]
    with [unknown-id]): the text is not an array, and none of the
    properties they read is a property of a string. *)
Theorem text_replies_yield_one_placeholder (h : Host) :
  (exists notes, result Notes.getAllNotes h = Returned notes /\
                 (notes = [] \/ notes = [placeholderNote])) /\
  (forall text,
      exists notes, result (Notes.findNote text) h = Returned notes /\
                    (notes = [] \/ notes = [placeholderNote])) /\
  (exists lists, result Reminders.getAllLists h = Returned lists /\
                 (lists = [] \/ lists = [placeholderList])).
Proof.
  repeat split; intros; exec; eexists; (split; [reflexivity |]);
    first [left; reflexivity | right; reflexivity].
Qed.

(** X14. [getMailboxes], [getAccounts], [getMailboxesForAccount] and
    [getEvents] keep a reply only if it is an array; the text that the
    bridge hands them is none, so they return the empty list on every
    host. *)
Theorem array_readers_return_nothing (h : Host) :
  result Mail.getMailboxes h = Returned [] /\
  result Mail.getAccounts h = Returned [] /\
  (forall account,
      result (Mail.getMailboxesForAccount account) h = Returned []) /\
  (forall limit from to,
      result (Calendar.getEvents limit from to) h = Returned []).
Proof.
  repeat split; intros; exec; reflexivity.
Qed.

(** X15. The mail queries cap the count they put in their script at
    [MAX_EMAILS]: a call of [getUnreadMails] or [searchMails] with a
    limit of twenty or more runs exactly as with the limit twenty. *)
Theorem mail_limits_are_clamped (h : Host) (limit : Z) :
  (Mail.MAX_EMAILS <= limit)%Z ->
  run (Mail.getUnreadMails (Some limit)) h
  = run (Mail.getUnreadMails (Some Mail.MAX_EMAILS)) h /\
  forall term,
    run (Mail.searchMails term (Some limit)) h
    = run (Mail.searchMails term (Some Mail.MAX_EMAILS)) h.
Proof.
  intros Hlimit.
  assert (Hmin : Z.min limit Mail.MAX_EMAILS = Mail.MAX_EMAILS) by lia.
  assert (Hmin' : Z.min Mail.MAX_EMAILS Mail.MAX_EMAILS = Mail.MAX_EMAILS)
    by lia.
  split; [| intros term];
    unfold Mail.getUnreadMails, Mail.searchMails, defaultTo;
    cbv zeta; rewrite Hmin, Hmin'; reflexivity.
Qed.

Lemma mail_limits_are_clamped_witness :
  dispatched (Mail.getUnreadMails (Some 500%Z))
    (hostReplying [Resolved (lit "Mail"); Resolved (lit "SUCCESS:0")])
  = [probeScript AppMail; Mail.unreadMailsScript 20].
Proof.
  unfold dispatched.
  rewrite (proj1 (@mail_limits_are_clamped
                    (hostReplying [Resolved (lit "Mail");
                                   Resolved (lit "SUCCESS:0")])
                    500%Z ltac:(vm_compute; discriminate))).
  reflexivity.
Defined.

(** ** The reply parser of getLatestMails *)

Lemma matchBraces_skips_plain_text (pre s : jsstring) :
  ~ In 123%N pre ->
  Mail.matchBraces None (pre ++ s) = Mail.matchBraces None s.
Proof.
  induction pre as [| c pre IH]; intros Hplain; [reflexivity |].
  cbn [app Mail.matchBraces].
  destruct (c =? 123)%N eqn:Hc.
  - apply N.eqb_eq in Hc. subst c. destruct Hplain. left. reflexivity.
  - apply IH. intros Hin. apply Hplain. right. exact Hin.
Qed.

Lemma matchBraces_reads_body (acc body rest : jsstring) :
  ~ In 125%N body ->
  Mail.matchBraces (Some acc) (body ++ 125%N :: rest)
  = if isEmpty (acc ++ body) then Mail.matchBraces None rest
    else (123%N :: (acc ++ body) ++ [125%N]) :: Mail.matchBraces None rest.
Proof.
  revert acc. induction body as [| c body IH]; intros acc Hopen.
  - cbn [app Mail.matchBraces]. rewrite N.eqb_refl, app_nil_r. reflexivity.
  - cbn [app Mail.matchBraces].
    destruct (c =? 125)%N eqn:Hc.
    + apply N.eqb_eq in Hc. subst c. destruct Hopen. left. reflexivity.
    + rewrite IH by (intros Hin; apply Hopen; right; exact Hin).
      rewrite <- app_assoc. reflexivity.
Qed.

(** X19. The matcher works group by group: text without an opening
    brace is skipped, and the first opening brace that is followed by a
    non-empty body without a closing brace and then by a closing brace
    yields that group as the first match; matching then goes on behind
    the closing brace. *)
Theorem matchBraces_compose (pre body rest : jsstring) :
  ~ In 123%N pre -> body <> [] -> ~ In 125%N body ->
  Mail.matchBraces None (pre ++ 123%N :: body ++ 125%N :: rest)
  = (123%N :: body ++ [125%N]) :: Mail.matchBraces None rest.
Proof.
  intros Hpre Hbody Hclose.
  rewrite matchBraces_skips_plain_text by exact Hpre.
  cbn [Mail.matchBraces]. rewrite N.eqb_refl.
  rewrite matchBraces_reads_body by exact Hclose.
  cbn [app]. destruct body; [congruence | reflexivity].
Qed.

Lemma matchBraces_compose_witness :
  Mail.matchBraces None (lit "list: {subject:Hi}, {sender:me}")
  = lit "{subject:Hi}" :: Mail.matchBraces None (lit ", {sender:me}").
Proof.
  apply (@matchBraces_compose (lit "list: ") (lit "subject:Hi")
           (lit ", {sender:me}"));
    vm_compute; intuition discriminate.
Defined.

Lemma matchBraces_shape_from (s : jsstring) :
  forall inside m,
    (forall acc, inside = Some acc -> ~ In 125%N acc) ->
    In m (Mail.matchBraces inside s) ->
    exists body, m = 123%N :: body ++ [125%N] /\ body <> [] /\ ~ In 125%N body.
Proof.
  induction s as [| c s IH]; intros inside m Hacc Hin; [destruct Hin |].
  cbn [Mail.matchBraces] in Hin. destruct inside as [acc |].
  - destruct (c =? 125)%N eqn:Hc.
    + destruct (isEmpty acc) eqn:Hempty.
      * apply (IH None m); [discriminate | exact Hin].
      * destruct Hin as [<- | Hin].
        -- exists acc. split; [reflexivity | split].
           ++ destruct acc; [discriminate Hempty | discriminate].
           ++ apply Hacc. reflexivity.
        -- apply (IH None m); [discriminate | exact Hin].
    + apply (IH (Some (acc ++ [c])) m); [| exact Hin].
      intros acc' [= <-] Hin'. apply in_app_or in Hin' as [Hin' | [-> | []]].
      * apply (Hacc acc eq_refl Hin').
      * rewrite N.eqb_refl in Hc. discriminate Hc.
  - destruct (c =? 123)%N.
    + apply (IH (Some []) m); [| exact Hin]. intros acc' [= <-] [].
    + apply (IH None m); [discriminate | exact Hin].
Qed.

(** X18. Every match of the reply against the record pattern is an
    opening brace, a non-empty body without a closing brace, and a
    closing brace. *)
Theorem matchBraces_shape (s m : jsstring) :
  In m (Mail.matchBraces None s) ->
  exists body, m = 123%N :: body ++ [125%N] /\ body <> [] /\ ~ In 125%N body.
Proof.
  apply matchBraces_shape_from. discriminate.
Qed.

Lemma matchBraces_shape_witness :
  exists body,
    lit "{{y}" = 123%N :: body ++ [125%N] /\ body <> [] /\ ~ In 125%N body.
Proof.
  apply (@matchBraces_shape (lit "{}{{y}") (lit "{{y}")).
  vm_compute. left. reflexivity.
Defined.

Lemma matchBraces_needs_closing_brace (s : jsstring) :
  forall inside, ~ In 125%N s -> Mail.matchBraces inside s = [].
Proof.
  induction s as [| c s IH]; intros inside Hopen; [reflexivity |].
  assert (Hs : ~ In 125%N s) by (intros Hin; apply Hopen; right; exact Hin).
  assert (Hc : (c =? 125)%N = false).
  { apply N.eqb_neq. intros ->. apply Hopen. left. reflexivity. }
  cbn [Mail.matchBraces]. destruct inside as [acc |].
  - rewrite Hc. apply IH, Hs.
  - destruct (c =? 123)%N; apply IH, Hs.
Qed.

(** X20. A property [key:value] of a record is stored under the
    trimmed key with the trimmed value, and the value is everything
    behind the first colon, further colons included; a property without
    a colon is dropped. *)
Theorem assign_keeps_colons_in_value
  (email : list (jsstring * jsstring)) (key value prop : jsstring) :
  ~ In 58%N key ->
  Mail.assign email (key ++ 58%N :: value) = (trim key, trim value) :: email /\
  (~ In 58%N prop -> Mail.assign email prop = email).
Proof.
  intros Hkey. unfold Mail.assign. split.
  - rewrite split_at_first_separator by exact Hkey.
    pose proof (split_nonempty 58 value) as Hne.
    destruct (split 58 value) as [| p ps] eqn:Hsplit; [congruence |].
    cbn [List.length Nat.leb hd tl]. rewrite <- Hsplit.
    change (lit ":") with [58%N]. rewrite join_split. reflexivity.
  - intros Hprop. rewrite split_without_separator by exact Hprop. reflexivity.
Qed.

Lemma assign_keeps_colons_in_value_witness :
  Mail.assign [] (lit " date:Monday 10:30:00 ")
  = [(lit "date", lit "Monday 10:30:00")].
Proof.
  apply (proj1 (@assign_keeps_colons_in_value [] (lit " date")
                  (lit "Monday 10:30:00 ") []
                  ltac:(vm_compute; intuition discriminate))).
Defined.

Lemma orElse_nonempty (a b : jsstring) : b <> [] -> orElse a b <> [].
Proof. intros Hb. destruct a; [exact Hb | discriminate]. Qed.

Lemma parseEmail_wellFormed (h : Host) (account m : jsstring)
  (e : Mail.EmailMessage) :
  In e (Mail.parseEmail h account m) -> wellFormedEmail account e.
Proof.
  unfold Mail.parseEmail.
  destruct (negb _); [| intros []].
  intros [<- | []]. unfold wellFormedEmail. cbn.
  repeat split; try (apply orElse_nonempty; discriminate).
  eexists. split; [| reflexivity]. apply orElse_nonempty. discriminate.
Qed.

Lemma flat_map_at_most_one {A B} (f : A -> list B) (l : list A) :
  (forall a, List.length (f a) <= 1)%nat ->
  (List.length (flat_map f l) <= List.length l)%nat.
Proof.
  intros Hf. induction l as [| a l IH]; [apply le_n |].
  cbn [flat_map List.length]. rewrite length_app.
  specialize (Hf a). lia.
Qed.

Lemma getLatestMails_result_shape (account : jsstring) (limit : option Z)
  (h : Host) :
  match run (Mail.getLatestMails account limit) h with
  | (Returned emails, t) =>
      (forall e, In e emails -> wellFormedEmail account e) /\
      (forall out,
          replied t TplLatestMails out ->
          (startsWith out (lit "Error:") = true -> emails = []) /\
          (~ In 125%N out -> emails = []) /\
          (List.length emails <= List.length (Mail.matchBraces None out))%nat)
  | (Thrown _, _) => False
  end.
Proof.
  exec; (split; [try (intros e []) |]);
    try (intros out Hreply; read_reply Hreply;
         rewrite ?sentinel_test in * by discriminate;
         repeat split; intros; try reflexivity; try congruence; cbn; try lia).
  - intros e Hin. apply in_flat_map in Hin as (m & _ & Hin).
    apply (parseEmail_wellFormed _ _ _ _ Hin).
  - rewrite matchBraces_needs_closing_brace by assumption. reflexivity.
  - apply flat_map_at_most_one. intros m.
    unfold Mail.parseEmail. destruct (negb _); cbn; lia.
Qed.

(** X16. [getLatestMails] never throws.  Every message it returns is
    unread, has a non-empty subject, sender and content (the defaults
    fill in what the record lacks), and a mailbox made of the account
    name, [ - ] and a non-empty box name; and it returns at most one
    message per record group of the reply. *)
Theorem latest_mails_are_well_formed (account : jsstring) (limit : option Z)
  (h : Host) :
  exists emails,
    result (Mail.getLatestMails account limit) h = Returned emails /\
    (forall e, In e emails -> wellFormedEmail account e) /\
    (forall out,
        replied (snd (run (Mail.getLatestMails account limit) h))
          TplLatestMails out ->
        (List.length emails <= List.length (Mail.matchBraces None out))%nat).
Proof.
  pose proof (getLatestMails_result_shape account limit h) as Hshape.
  unfold result.
  destruct (run (Mail.getLatestMails account limit) h) as [[emails | e] t];
    [| destruct Hshape].
  exists emails. split; [reflexivity | split; [apply Hshape |]].
  intros out Hreply. apply (proj2 Hshape out Hreply).
Qed.

(** X17. When the script replied a text that starts with [Error:], or
    one without a closing brace, [getLatestMails] returns the empty
    list: the error is logged, not thrown. *)
Theorem latest_mails_empty_without_records (account : jsstring)
  (limit : option Z) (h : Host) (out : jsstring) :
  replied (snd (run (Mail.getLatestMails account limit) h)) TplLatestMails out ->
  startsWith out (lit "Error:") = true \/ ~ In 125%N out ->
  result (Mail.getLatestMails account limit) h = Returned [].
Proof.
  pose proof (getLatestMails_result_shape account limit h) as Hshape.
  unfold result.
  destruct (run (Mail.getLatestMails account limit) h) as [[emails | e] t];
    [| destruct Hshape].
  cbn [fst snd]. intros Hreply Hout.
  destruct Hshape as [_ Hshape].
  destruct (Hshape out Hreply) as (Herror & Hopen & _).
  f_equal. destruct Hout; auto.
Qed.

Lemma latest_mails_empty_without_records_witness :
  result (Mail.getLatestMails (lit "Work") None)
    (hostReplying [Resolved (lit "Mail");
                   Resolved (lit "Error: Can't get account {Work}")])
  = Returned [].
Proof.
  apply (@latest_mails_empty_without_records (lit "Work") None
           (hostReplying [Resolved (lit "Mail");
                          Resolved (lit "Error: Can't get account {Work}")])
           (lit "Error: Can't get account {Work}")).
  - vm_compute. eexists. split; [right; left; reflexivity | reflexivity].
  - left. reflexivity.
Defined.
